(** * LearningTracker: the progress store of the learning-path tracker

    A shallow embedding of the [LearningTracker] class (progress record,
    schema migration, aggregation, JSON persistence) and of the
    [reset_progress] handler of the GUI class, followed by the theorems
    that settle the specification's claims about them.

    Modelling decisions.
    - Values handled by the tracker are what [json.load] can return: [None],
      booleans, numbers, strings, lists and dictionaries with string keys.
    - A Python [dict] keeps its keys in insertion order, and the loops of
      the program iterate in that order, so a dictionary is an association
      list; a new key is appended, an existing key is updated in place.
      Equality of two such lists implies Python's [==] on the dictionaries.
    - A number is held as its exact value, a rational ([Qc]): a finite
      binary64 number is one, an [int] is one. The distinction between [0]
      and [0.0] is not modelled, nor are infinities and NaN.
    - The two aggregations are modelled twice. [update_stage_progress_b64]
      and [update_total_progress_b64] compute as the program does, every
      operation rounded to the nearest binary64 number (for the additions
      of [sum] see [py_add_b64]); they settle what the program stores.
      [update_stage_progress] and
      [update_total_progress] compute in exact arithmetic; the mutators are
      built on them, for the properties that do not depend on the last
      place of the stored numbers.
    - Exceptions are values of [exn]; code that can raise lives in the
      [result] monad, methods of the tracker in a state-and-exception
      monad over the in-memory record and the disk.
    - The wall clock is an argument ([clock]) of every operation that
      reads it. *)

From Stdlib Require Import QArith Qcanon PrimFloat.
From stdpp Require Import gmap strings list numbers.

Set Warnings "-register-all".
#[local] Open Scope string_scope.

(** ** Python values and exceptions *)

Inductive exn :=
| KeyError (key : string)
| TypeError
| AttributeError
| ZeroDivisionError
| FileNotFoundError
| PermissionError
| JSONDecodeError
| OverflowError.

Inductive result (A : Type) :=
| Ok (a : A)
| Raise (e : exn).
Arguments Ok {A} a.
Arguments Raise {A} e.

Definition rbind {A B} (m : result A) (f : A -> result B) : result B :=
  match m with
  | Ok a => f a
  | Raise e => Raise e
  end.

Notation "x <- m ;; k" := (rbind m (fun x => k))
  (at level 100, m at next level, right associativity,
   format "'[v' x  <-  m  ;; '/' k ']'").

Inductive pyval :=
| VNone
| VBool (b : bool)
| VNum (q : Qc)
| VStr (s : string)
| VList (l : list pyval)
| VDict (d : list (string * pyval)).

Abbreviation dict := (list (string * pyval)).

Definition num (z : Z) : pyval := VNum (Qc_of_Z z).

(** ** Insertion-ordered dictionaries *)

Fixpoint dict_get {A} (k : string) (d : list (string * A)) : option A :=
  match d with
  | [] => None
  | (k', v) :: d' => if decide (k = k') then Some v else dict_get k d'
  end.

Fixpoint dict_set {A} (k : string) (v : A) (d : list (string * A))
  : list (string * A) :=
  match d with
  | [] => [(k, v)]
  | (k', v') :: d' =>
      if decide (k = k') then (k, v) :: d' else (k', v') :: dict_set k v d'
  end.

Definition dict_has {A} (k : string) (d : list (string * A)) : bool :=
  match dict_get k d with Some _ => true | None => false end.

(** ** The Python operations the tracker uses; the key is always a [str] *)

(** [sub in s] on strings. *)
Definition str_contains (sub s : string) : bool :=
  match String.index 0 sub s with Some _ => true | None => false end.

Definition is_str (k : string) (v : pyval) : bool :=
  match v with VStr s => bool_decide (s = k) | _ => false end.

(** [v[k]] *)
Definition py_getitem (v : pyval) (k : string) : result pyval :=
  match v with
  | VDict d =>
      match dict_get k d with Some x => Ok x | None => Raise (KeyError k) end
  | _ => Raise TypeError
  end.

(** [v[k] = x] *)
Definition py_setitem (v : pyval) (k : string) (x : pyval) : result pyval :=
  match v with
  | VDict d => Ok (VDict (dict_set k x d))
  | _ => Raise TypeError
  end.

(** [k in v] *)
Definition py_contains (k : string) (v : pyval) : result bool :=
  match v with
  | VDict d => Ok (dict_has k d)
  | VList l => Ok (existsb (is_str k) l)
  | VStr s => Ok (str_contains k s)
  | _ => Raise TypeError
  end.

(** [for k in v] over a dictionary: its keys, in insertion order. *)
Definition py_keys (v : pyval) : result (list string) :=
  match v with
  | VDict d => Ok (d.*1)
  | _ => Raise TypeError
  end.

(** [v.values()] *)
Definition py_values (v : pyval) : result (list pyval) :=
  match v with
  | VDict d => Ok (d.*2)
  | _ => Raise AttributeError
  end.

(** [v.get(k, dflt)] *)
Definition py_get (v : pyval) (k : string) (dflt : pyval) : result pyval :=
  match v with
  | VDict d => Ok (default dflt (dict_get k d))
  | _ => Raise AttributeError
  end.

(** [len(v)] *)
Definition py_len (v : pyval) : result nat :=
  match v with
  | VDict d => Ok (length d)
  | VList l => Ok (length l)
  | VStr s => Ok (String.length s)
  | _ => Raise TypeError
  end.

(** Truth value of [v] in a condition. *)
Definition py_truthy (v : pyval) : bool :=
  match v with
  | VNone => false
  | VBool b => b
  | VNum q => negb (bool_decide (q = 0%Qc))
  | VStr s => negb (bool_decide (s = ""))
  | VList l => negb (bool_decide (l = []))
  | VDict d => negb (bool_decide (d = []))
  end.

(** [acc + v] for a numeric accumulator; [bool] is a subtype of [int]. *)
Definition py_add (acc : Qc) (v : pyval) : result Qc :=
  match v with
  | VNum q => Ok (acc + q)%Qc
  | VBool b => Ok (acc + (if b then 1 else 0))%Qc
  | _ => Raise TypeError
  end.

(** A loop whose body may raise. *)
Fixpoint foldM {A B} (f : A -> B -> result A) (a : A) (l : list B)
  : result A :=
  match l with
  | [] => Ok a
  | b :: l' => a' <- f a b ;; foldM f a' l'
  end.

(** ** The curriculum template: [get_default_data] *)

(** The two readings of [datetime.now()] the program formats:
    ["%Y-%m-%d"] and ["%Y-%m-%d %H:%M:%S"]. *)
Record clock := Clock { today : string; stamp : string }.

Definition dquote : string := String (Ascii.ascii_of_nat 34) "".

Definition resource (name url : string) : pyval :=
  VDict [("name", VStr name); ("url", VStr url); ("completed", VBool false)].

Definition task (name : string) : pyval :=
  VDict [("name", VStr name); ("completed", VBool false)].

Definition stage (name : string) (resources tasks : dict) : pyval :=
  VDict [("name", VStr name); ("completed", VBool false); ("progress", num 0);
         ("resources", VDict resources); ("tasks", VDict tasks)].

Definition default_stages : dict :=
  [ ("stage1", stage "Основы Python (3-8 недель)"
      [ ("resource1", resource "Программирование на Python (Stepik)"
                        "https://stepik.org/course/67/promo");
        ("resource2", resource "Интерактивный тренажер Hexlet"
                        "https://ru.hexlet.io/courses/python-basics");
        ("resource3", resource "Python для начинающих (YouTube-канал Егорова)"
                        "https://www.youtube.com/playlist?list=PLQAt0m1f9OHvGM7Y7jZBZS-9wTksAidIF");
        ("resource4", resource
                        ("Книга " +:+ dquote +:+ "Изучаем Python" +:+ dquote
                           +:+ " (Эрик Мэтиз)")
                        "https://www.ozon.ru/product/izuchaem-python-programmirovanie-igr-vizualizatsiya-dannyh-prilozheniya-erik-metiz-207759704/") ]
      [ ("task1", task "Зарегистрироваться на Coding Game");
        ("task2", task "Решить 20+ простых задач");
        ("task3", task "Создать калькулятор");
        ("task4", task "Создать конвертер валют");
        ("task5", task "Создать программу для учета финансов") ]);
    ("stage2", stage "Освоение Git и GitHub (1-2 недели)"
      [ ("resource1", resource "GitHub Skills" "https://skills.github.com/");
        ("resource2", resource "Learn Git Branching"
                        "https://learngitbranching.js.org/");
        ("resource3", resource "Pro Git (книга)"
                        "https://git-scm.com/book/ru/v2") ]
      [ ("task1", task "Установить Git на компьютер");
        ("task2", task "Создать аккаунт на GitHub");
        ("task3", task "Создать первый репозиторий");
        ("task4", task "Сделать 5+ коммитов");
        ("task5", task "Создать ветку и merge request") ]);
    ("stage3", stage "Углубленное изучение Python (1-2 месяца)"
      [ ("resource1", resource "Python. К вершинам мастерства (Лучано Рамальо)"
                        "https://www.ozon.ru/product/python-k-vershinam-masterstva-144901049/");
        ("resource2", resource "Официальная документация Python"
                        "https://docs.python.org/3/tutorial/index.html") ]
      [ ("task1", task "Изучить ООП: классы и объекты");
        ("task2", task "Изучить наследование и полиморфизм");
        ("task3", task "Освоить виртуальные окружения");
        ("task4", task "Изучить менеджер пакетов pip");
        ("task5", task "Создать телефонный справочник");
        ("task6", task "Создать игру 'Виселица'");
        ("task7", task "Создать парсер сайта");
        ("task8", task "Создать Telegram-бота") ]);
    ("stage4", stage "Выбор специализации (2-4 месяца)"
      [ ("web_resource1", resource "Официальная документация Django"
                            "https://docs.djangoproject.com/");
        ("web_resource2", resource "Официальная документация Flask"
                            "https://flask.palletsprojects.com/");
        ("web_resource3", resource "Web-разработка на Python (Stepik)"
                            "https://stepik.org/course/154538/promo");
        ("ds_resource1", resource "Machine Learning на Coursera"
                           "https://www.coursera.org/specializations/machine-learning-introduction") ]
      [ ("task1", task "Выбрать специализацию");
        ("task2", task "Изучить выбранный фреймворк");
        ("task3", task "Изучить базы данных");
        ("task4", task "Создать проект на выбранном фреймворке");
        ("task5", task "Разработать REST API");
        ("task6", task "Изучить дополнительные библиотеки") ]) ].

Definition get_default_data (clk : clock) : pyval :=
  VDict [ ("stages", VDict default_stages);
          ("metadata", VDict [ ("start_date", VStr (today clk));
                               ("last_update", VStr (stamp clk));
                               ("total_progress", num 0) ]) ].

(** ** Schema migration: [fix_missing_data] *)

(** The inner loop: [for task_id in default_tasks: if task_id not in
    current_tasks: current_tasks[task_id] = default_tasks[task_id]]. *)
Definition merge_task (default_tasks cur : pyval) (task_id : string)
  : result pyval :=
  present <- py_contains task_id cur ;;
  if present then Ok cur
  else v <- py_getitem default_tasks task_id ;;
       py_setitem cur task_id v.

Definition merge_tasks (default_tasks current_tasks : pyval) : result pyval :=
  ks <- py_keys default_tasks ;;
  foldM (merge_task default_tasks) current_tasks ks.

(** The branch taken when [stage_id in data['stages']], acting on the stage
    object [st = data['stages'][stage_id]], which it mutates in place. *)
Definition fix_present_stage (default_stage st : pyval) : result pyval :=
  has_resources <- py_contains "resources" st ;;
  st1 <- (if has_resources then Ok st
         else r <- py_getitem default_stage "resources" ;;
              py_setitem st "resources" r) ;;
  current_tasks <- py_getitem st1 "tasks" ;;
  default_tasks <- py_getitem default_stage "tasks" ;;
  current_tasks' <- merge_tasks default_tasks current_tasks ;;
  py_setitem st1 "tasks" current_tasks'.

(** One iteration of the outer loop. *)
Definition fix_stage (default_stages : pyval) (data : pyval) (stage_id : string)
  : result pyval :=
  stages <- py_getitem data "stages" ;;
  present <- py_contains stage_id stages ;;
  stages' <- (if present then
               st <- py_getitem stages stage_id ;;
               default_stage <- py_getitem default_stages stage_id ;;
               st' <- fix_present_stage default_stage st ;;
               py_setitem stages stage_id st'
             else
               default_stage <- py_getitem default_stages stage_id ;;
               py_setitem stages stage_id default_stage) ;;
  py_setitem data "stages" stages'.

Definition fix_missing_data_from (default_data data : pyval) : result pyval :=
  default_stages <- py_getitem default_data "stages" ;;
  ks <- py_keys default_stages ;;
  foldM (fix_stage default_stages) data ks.

Definition fix_missing_data (clk : clock) (data : pyval) : result pyval :=
  fix_missing_data_from (get_default_data clk) data.

(** ** The tracker: in-memory record and disk *)

(** A file on disk: one on which [open] raises, or a text file, of which
    only what [json.load] makes of it matters ([None]: not JSON).
    [json.dump] followed by [json.load] gives back the value written. *)
Inductive file :=
| Locked
| Text (parsed : option pyval).

Record world := World { self_data : pyval; disk : gmap string file }.

Definition M (A : Type) : Type := world -> result A * world.

Definition sret {A} (a : A) : M A := fun w => (Ok a, w).

Definition sbind {A B} (m : M A) (f : A -> M B) : M B :=
  fun w =>
    match m w with
    | (Ok a, w') => f a w'
    | (Raise e, w') => (Raise e, w')
    end.

Notation "x <~ m ;; k" := (sbind m (fun x => k))
  (at level 100, m at next level, right associativity,
   format "'[v' x  <~  m  ;; '/' k ']'").
Notation "m ;;; k" := (sbind m (fun _ => k))
  (at level 100, right associativity,
   format "'[v' m  ;;; '/' k ']'").

Definition lift {A} (r : result A) : M A := fun w => (r, w).

Definition get_data : M pyval := fun w => (Ok (self_data w), w).

Definition set_data (v : pyval) : M unit :=
  fun w => (Ok tt, World v (disk w)).

(** [try: body / except: handler]; what [body] changed before raising stays. *)
Definition try_except {A} (body handler : M A) : M A :=
  fun w =>
    match body w with
    | (Ok a, w') => (Ok a, w')
    | (Raise _, w') => handler w'
    end.

(** [os.path.exists(p)] *)
Definition path_exists (p : string) : M bool :=
  fun w => (Ok (bool_decide (is_Some (disk w !! p))), w).

(** [with open(p, 'r', encoding='utf-8') as f: json.load(f)] *)
Definition read_json (p : string) : M pyval :=
  fun w =>
    match disk w !! p with
    | None => (Raise FileNotFoundError, w)
    | Some Locked => (Raise PermissionError, w)
    | Some (Text None) => (Raise JSONDecodeError, w)
    | Some (Text (Some v)) => (Ok v, w)
    end.

(** [with open(p, 'w', encoding='utf-8') as f: json.dump(v, f, ...)].
    The write fails here only when the file cannot be opened, and then
    the file is as it was. [open] empties the file before [json.dump]
    runs: a write that fails after the file is opened (an I/O error, a
    string that has no UTF-8 encoding) leaves it truncated; that failure
    is not in the model. *)
Definition write_json (p : string) (v : pyval) : M unit :=
  fun w =>
    match disk w !! p with
    | Some Locked => (Raise PermissionError, w)
    | _ => (Ok tt, World (self_data w) (<[p := Text (Some v)]> (disk w)))
    end.

(** Assignment to the object reached from [v] along [path]: the objects on
    the way are looked up, the last one is changed by [f], in place. *)
Fixpoint update_at (path : list string) (f : pyval -> result pyval) (v : pyval)
  : result pyval :=
  match path with
  | [] => f v
  | k :: path' =>
      child <- py_getitem v k ;;
      child' <- update_at path' f child ;;
      py_setitem v k child'
  end.

Definition filename : string := "learning_progress.json".

Definition load_data (clk : clock) : M pyval :=
  found <~ path_exists filename ;;
  if found then
    try_except
      (data <~ read_json filename ;;
       lift (fix_missing_data clk data))
      (sret (get_default_data clk))
  else sret (get_default_data clk).

Definition save_data (clk : clock) : M unit :=
  data <~ get_data ;;
  data' <~ lift (update_at ["metadata"]
                   (fun m => py_setitem m "last_update" (VStr (stamp clk)))
                   data) ;;
  set_data data' ;;;
  write_json filename data'.

Definition Qc_of_nat (n : nat) : Qc := Qc_of_Z (Z.of_nat n).

(** [sum(1 for item in items if item['completed'])] *)
Definition count_completed (items : list pyval) : result nat :=
  foldM (fun (n : nat) (item : pyval) =>
           c <- py_getitem item "completed" ;;
           Ok (if py_truthy c then S n else n))
        0%nat items.

(** The body of [update_stage_progress] on the stage object, in exact
    arithmetic; [recompute_stage_b64] has the rounding of the program. *)
Definition recompute_stage (stage : pyval) : result pyval :=
  tasks <- py_getitem stage "tasks" ;;
  resources <- py_get stage "resources" (VDict []) ;;
  task_values <- py_values tasks ;;
  completed_tasks <- count_completed task_values ;;
  resource_values <- py_values resources ;;
  completed_resources <- count_completed resource_values ;;
  len_tasks <- py_len tasks ;;
  len_resources <- py_len resources ;;
  let total_items := (len_tasks + len_resources)%nat in
  let progress :=
    if bool_decide (0 < total_items)%nat
    then (Qc_of_nat (completed_tasks + completed_resources)
            / Qc_of_nat total_items * Qc_of_Z 100)%Qc
    else 0%Qc in
  stage1 <- py_setitem stage "progress" (VNum progress) ;;
  py_setitem stage1 "completed" (VBool (bool_decide (Qc_of_Z 100 ≤ progress)%Qc)).

Definition update_stage_progress (stage_id : string) : M unit :=
  data <~ get_data ;;
  data' <~ lift (update_at ["stages"; stage_id] recompute_stage data) ;;
  set_data data'.

(** [sum(stage['progress'] for stage in stages.values()) / len(stages)] in
    exact arithmetic; [mean_progress_b64] has the rounding of the program
    and its [OverflowError]. *)
Definition mean_progress (stages : pyval) : result Qc :=
  values <- py_values stages ;;
  total <- foldM (fun (acc : Qc) (stage : pyval) =>
                    p <- py_getitem stage "progress" ;;
                    py_add acc p)
                 0%Qc values ;;
  n <- py_len stages ;;
  if bool_decide (n = 0%nat) then Raise ZeroDivisionError
  else Ok (total / Qc_of_nat n)%Qc.

Definition update_total_progress : M unit :=
  data <~ get_data ;;
  data' <~ lift (stages <- py_getitem data "stages" ;;
                 total_progress <- mean_progress stages ;;
                 update_at ["metadata"]
                   (fun m => py_setitem m "total_progress" (VNum total_progress))
                   data) ;;
  set_data data'.

Definition update_task (clk : clock) (stage_id task_id : string)
  (completed : bool) : M unit :=
  data <~ get_data ;;
  data' <~ lift (update_at ["stages"; stage_id; "tasks"; task_id]
                   (fun t => py_setitem t "completed" (VBool completed))
                   data) ;;
  set_data data' ;;;
  update_stage_progress stage_id ;;;
  update_total_progress ;;;
  save_data clk.

Definition update_resource (clk : clock) (stage_id resource_id : string)
  (completed : bool) : M unit :=
  data <~ get_data ;;
  data' <~ lift (update_at ["stages"; stage_id; "resources"; resource_id]
                   (fun r => py_setitem r "completed" (VBool completed))
                   data) ;;
  set_data data' ;;;
  update_stage_progress stage_id ;;;
  update_total_progress ;;;
  save_data clk.

Definition export_progress (filename : string) : M unit :=
  data <~ get_data ;;
  write_json filename data.

Definition import_progress (clk : clock) (filename : string) : M bool :=
  try_except
    (data <~ read_json filename ;;
     data' <~ lift (fix_missing_data clk data) ;;
     set_data data' ;;;
     sret true)
    (sret false).

(** [LearningTrackerGUI.reset_progress], once the user has confirmed:
    [clk] is read by [get_default_data], [clk'] by [save_data]. *)
Definition reset_progress (clk clk' : clock) : M unit :=
  set_data (get_default_data clk) ;;;
  save_data clk'.

(** ** Reading a record *)

(** [data['stages'][stage_id]] *)
Definition stage_of (data : pyval) (stage_id : string) : result pyval :=
  stages <- py_getitem data "stages" ;;
  py_getitem stages stage_id.

(** [data['stages'][stage_id][kind][item_id]], [kind] being ["tasks"] or
    ["resources"]. *)
Definition item_of (data : pyval) (stage_id kind item_id : string)
  : result pyval :=
  st <- stage_of data stage_id ;;
  items <- py_getitem st kind ;;
  py_getitem items item_id.

(** ** Shapes of records *)

(** What a default stage must provide for the migration to go through: a
    ["resources"] entry and a dictionary of ["tasks"]. *)
Definition template_stage_ok (default_stage : pyval) : bool :=
  match py_getitem default_stage "resources", py_getitem default_stage "tasks" with
  | Ok _, Ok (VDict _) => true
  | _, _ => false
  end.

Definition stage_shape_ok (st : pyval) : bool :=
  match py_getitem st "tasks" with
  | Ok (VDict _) => true
  | _ => false
  end.

(** A record on which the migration does not raise: ["stages"] is a
    dictionary, and each of the stages [ks] it already holds is a
    dictionary with a dictionary of ["tasks"]. *)
Definition well_shaped_for (ks : list string) (data : pyval) : bool :=
  match py_getitem data "stages" with
  | Ok (VDict sl) =>
      forallb (fun sid => match dict_get sid sl with
                          | Some st => stage_shape_ok st
                          | None => true
                          end) ks
  | _ => false
  end.

Definition well_shaped (data : pyval) : bool :=
  well_shaped_for default_stages.*1 data.

(** ** Sample records and clocks *)

Definition clock0 : clock := Clock "2024-01-01" "2024-01-01 09:00:00".
Definition clock1 : clock := Clock "2024-03-05" "2024-03-05 18:30:00".

Definition done_resource (name url : string) : pyval :=
  VDict [("name", VStr name); ("url", VStr url); ("completed", VBool true)].

Definition done_task (name : string) : pyval :=
  VDict [("name", VStr name); ("completed", VBool true)].

(** A file written before resources existed and before the curriculum
    grew: one stage, no ["resources"] key, two of the tasks. *)
Definition early_record : pyval :=
  VDict [ ("stages", VDict
            [ ("stage1", VDict
                [ ("name", VStr "Основы Python");
                  ("completed", VBool false);
                  ("progress", num 50);
                  ("tasks", VDict
                    [ ("task1", done_task "Зарегистрироваться на Coding Game");
                      ("task2", task "Решить 20+ простых задач") ]) ]) ]);
          ("metadata", VDict [ ("start_date", VStr "2023-09-01");
                               ("last_update", VStr "2023-09-02 10:00:00");
                               ("total_progress", num 50) ]) ].

(** The default record, except that the first stage lists one resource. *)
Definition one_resource_record : pyval :=
  VDict [ ("stages", VDict
            (("stage1", VDict
                [ ("name", VStr "Основы Python (3-8 недель)");
                  ("completed", VBool false);
                  ("progress", num 0);
                  ("resources", VDict
                    [ ("resource1", resource "Программирование на Python (Stepik)"
                                      "https://stepik.org/course/67/promo") ]);
                  ("tasks", VDict
                    [ ("task1", task "Зарегистрироваться на Coding Game");
                      ("task2", task "Решить 20+ простых задач");
                      ("task3", task "Создать калькулятор");
                      ("task4", task "Создать конвертер валют");
                      ("task5", task "Создать программу для учета финансов") ]) ])
               :: tail default_stages));
          ("metadata", VDict [ ("start_date", VStr "2023-09-01");
                               ("last_update", VStr "2023-09-02 10:00:00");
                               ("total_progress", num 0) ]) ].

(** ** The aggregates in the words of the specification *)

(** [completed == true] *)
Definition is_completed (item : pyval) : bool :=
  match py_getitem item "completed" with
  | Ok (VBool true) => true
  | _ => false
  end.

(** The resource or task entries of a stage. *)
Definition items_of (st : pyval) (kind : string) : list pyval :=
  match py_getitem st kind with
  | Ok (VDict d) => d.*2
  | _ => []
  end.

Definition total_in (st : pyval) (kind : string) : nat :=
  length (items_of st kind).

Definition completed_in (st : pyval) (kind : string) : nat :=
  length (List.filter is_completed (items_of st kind)).

(** [100 * c / n] *)
Definition percentage (c n : nat) : Qc :=
  (Qc_of_Z 100 * Qc_of_nat c / Qc_of_nat n)%Qc.

Definition mean (ps : list Qc) : Qc :=
  (foldr Qcplus 0 ps / Qc_of_nat (length ps))%Qc.

(** Entries as the data model types them: dictionaries with a boolean
    ["completed"]. *)
Definition typed_item (item : pyval) : bool :=
  match py_getitem item "completed" with
  | Ok (VBool _) => true
  | _ => false
  end.

Definition typed_items (items : pyval) : bool :=
  match items with
  | VDict d => forallb typed_item d.*2
  | _ => false
  end.

(** A stage with typed tasks and, if it has the key, typed resources. *)
Definition typed_stage (st : pyval) : bool :=
  match py_getitem st "tasks" with
  | Ok tasks => typed_items tasks
  | Raise _ => false
  end
  && match py_getitem st "resources" with
     | Ok resources => typed_items resources
     | Raise _ => true
     end.

(** Three stages whose progress values are 0, 50 and 100. *)
Definition three_stage_record : pyval :=
  VDict [ ("stages", VDict
            [ ("a", VDict [("progress", num 0); ("tasks", VDict [])]);
              ("b", VDict [("progress", num 50); ("tasks", VDict [])]);
              ("c", VDict [("progress", num 100); ("tasks", VDict [])]) ]);
          ("metadata", VDict [ ("total_progress", num 0) ]) ].

(** A stage with 3 tasks and 2 resources, 2 tasks and 1 resource done. *)
Definition sample_stage : pyval :=
  VDict [ ("name", VStr "s"); ("completed", VBool false); ("progress", num 0);
          ("resources", VDict [ ("r1", done_resource "r1" "u1");
                                ("r2", resource "r2" "u2") ]);
          ("tasks", VDict [ ("t1", done_task "t1"); ("t2", task "t2");
                            ("t3", done_task "t3") ]) ].

Definition sample_stage_record : pyval :=
  VDict [ ("stages", VDict [ ("s", sample_stage);
                             ("empty", VDict [("tasks", VDict [])]) ]);
          ("metadata", VDict [ ("total_progress", num 0) ]) ].

(** ** The aggregation in the arithmetic of the program *)

(** [(completed / total_items) * 100] on floats. *)
Definition float_stage_progress (completed total_items : float) : float :=
  (completed / total_items * 100)%float.

(** [sum(progresses) / n] on floats, the sum starting from [0]. *)
Definition float_mean (progresses : list float) (n : float) : float :=
  (fold_left PrimFloat.add progresses 0 / n)%float.

(** ** Files and references the tracker cannot use *)

(** A file from which no record can be taken: absent, not to be opened,
    not JSON, or JSON on which the migration raises. *)
Definition unusable (clk : clock) (f : option file) : bool :=
  match f with
  | None => true
  | Some Locked => true
  | Some (Text None) => true
  | Some (Text (Some v)) =>
      match fix_missing_data clk v with
      | Raise _ => true
      | Ok _ => false
      end
  end.

(** The stage [stage_id] is not in the record, or it is and its [kind]
    mapping has no entry [item_id]. *)
Definition unknown_ref (data : pyval) (stage_id kind item_id : string) : Prop :=
  stage_of data stage_id = Raise (KeyError stage_id) \/
  exists st items,
    stage_of data stage_id = Ok st /\ py_getitem st kind = Ok items /\
    py_getitem items item_id = Raise (KeyError item_id).

(** JSON of the wrong shape: ["stages"] is a list. *)
Definition misshapen : pyval := VDict [("stages", VList [])].

Definition default_world : world :=
  World (get_default_data clock0) {[ filename := Text (Some misshapen) ]}.

(** ** Records that hold the whole curriculum *)

(** The stage has a ["resources"] key and every default task. *)
Definition stage_complete (default_stage st : pyval) : bool :=
  match py_contains "resources" st,
        py_getitem st "tasks", py_getitem default_stage "tasks" with
  | Ok true, Ok (VDict c), Ok (VDict dl) =>
      forallb (fun task_id => dict_has task_id c) dl.*1
  | _, _, _ => false
  end.

Definition complete_record (data : pyval) : bool :=
  match py_getitem data "stages" with
  | Ok (VDict sl) =>
      forallb (fun '(stage_id, default_stage) =>
                 match dict_get stage_id sl with
                 | Some st => stage_complete default_stage st
                 | None => false
                 end) default_stages
  | _ => false
  end.

(** ** Consistency of the stored aggregates *)

Definition stage_progress (st : pyval) : option Qc :=
  match py_getitem st "progress" with
  | Ok (VNum q) => Some q
  | _ => None
  end.

(** [stage.progress] is the percentage of completed resources and tasks. *)
Definition stage_consistent (st : pyval) : bool :=
  match stage_progress st with
  | Some q =>
      bool_decide
        (q = percentage (completed_in st "resources" + completed_in st "tasks")
                        (total_in st "resources" + total_in st "tasks"))
  | None => false
  end.

(** Every stage is consistent and [metadata.total_progress] is the mean of
    the stage progresses. *)
Definition aggregates_consistent (data : pyval) : bool :=
  match py_getitem data "stages",
        (metadata <- py_getitem data "metadata" ;;
         py_getitem metadata "total_progress") with
  | Ok (VDict sl), Ok (VNum total) =>
      forallb stage_consistent sl.*2
      && bool_decide (total = mean (omap stage_progress sl.*2))
  | _, _ => false
  end.

(** A record stored when the first stage had four tasks, all of its
    entries done: its aggregates are those the program computed then. *)
Definition outdated_record : pyval :=
  VDict [ ("stages", VDict
            (("stage1", VDict
                [ ("name", VStr "Основы Python (3-8 недель)");
                  ("completed", VBool true);
                  ("progress", num 100);
                  ("resources", VDict
                    [ ("resource1", done_resource
                                      "Программирование на Python (Stepik)"
                                      "https://stepik.org/course/67/promo");
                      ("resource2", done_resource
                                      "Интерактивный тренажер Hexlet"
                                      "https://ru.hexlet.io/courses/python-basics");
                      ("resource3", done_resource
                                      "Python для начинающих (YouTube-канал Егорова)"
                                      "https://www.youtube.com/playlist?list=PLQAt0m1f9OHvGM7Y7jZBZS-9wTksAidIF");
                      ("resource4", done_resource
                                      ("Книга " +:+ dquote +:+ "Изучаем Python"
                                         +:+ dquote +:+ " (Эрик Мэтиз)")
                                      "https://www.ozon.ru/product/izuchaem-python-programmirovanie-igr-vizualizatsiya-dannyh-prilozheniya-erik-metiz-207759704/") ]);
                  ("tasks", VDict
                    [ ("task1", done_task "Зарегистрироваться на Coding Game");
                      ("task2", done_task "Решить 20+ простых задач");
                      ("task3", done_task "Создать калькулятор");
                      ("task4", done_task "Создать конвертер валют") ]) ])
               :: tail default_stages));
          ("metadata", VDict [ ("start_date", VStr "2023-09-01");
                               ("last_update", VStr "2023-12-24 21:15:00");
                               ("total_progress", num 25) ]) ].

Definition import_world : world :=
  World (get_default_data clock0)
        {[ "old.json" := Text (Some outdated_record) ]}.

(** ** Construction of the tracker *)

(** [LearningTracker.__init__]: the record is what [load_data] returns;
    before that the object has no [data] attribute ([VNone] stands for it,
    [load_data] does not read it). *)
Definition init (clk : clock) (d : gmap string file) : result world :=
  match load_data clk (World VNone d) with
  | (Ok data, w) => Ok (World data (disk w))
  | (Raise e, _) => Raise e
  end.

(** ** Flags of any JSON type *)

(** The entry has a ["completed"] key, whatever its value. *)
Definition keyed_item (item : pyval) : bool :=
  match py_getitem item "completed" with
  | Ok _ => true
  | Raise _ => false
  end.

Definition keyed_items (items : pyval) : bool :=
  match items with
  | VDict d => forallb keyed_item d.*2
  | _ => false
  end.

Definition keyed_stage (st : pyval) : bool :=
  match py_getitem st "tasks" with
  | Ok tasks => keyed_items tasks
  | Raise _ => false
  end
  && match py_getitem st "resources" with
     | Ok resources => keyed_items resources
     | Raise _ => true
     end.

(** [if item['completed']] *)
Definition truthy_flag (item : pyval) : bool :=
  match py_getitem item "completed" with
  | Ok c => py_truthy c
  | Raise _ => false
  end.

Definition truthy_in (st : pyval) (kind : string) : nat :=
  length (List.filter truthy_flag (items_of st kind)).

(** ** What a toggle changes *)

(** The record [d'] is [d] with the flag of entry [id] of [kind] in stage
    [sid] set to [b]; beside that only the aggregates of the stage, the
    total and the time stamp may differ. *)
Definition flag_effect (kind sid id : string) (b : bool) (d d' : pyval) : Prop :=
  (exists item, item_of d sid kind id = Ok item /\
                item_of d' sid kind id = py_setitem item "completed" (VBool b)) /\
  (forall id', id' <> id -> item_of d' sid kind id' = item_of d sid kind id') /\
  (forall k, k <> kind -> k <> "progress" -> k <> "completed" ->
             (st <- stage_of d' sid ;; py_getitem st k)
             = (st <- stage_of d sid ;; py_getitem st k)) /\
  (forall sid', sid' <> sid -> stage_of d' sid' = stage_of d sid') /\
  (forall k, k <> "stages" -> k <> "metadata" ->
             py_getitem d' k = py_getitem d k) /\
  (forall k, k <> "total_progress" -> k <> "last_update" ->
             (m <- py_getitem d' "metadata" ;; py_getitem m k)
             = (m <- py_getitem d "metadata" ;; py_getitem m k)).

(** No resource and no task of the record is completed. *)
Definition no_item_completed (data : pyval) : bool :=
  match py_getitem data "stages" with
  | Ok (VDict sl) =>
      forallb (fun st =>
                 forallb (fun item => negb (truthy_flag item))
                         (items_of st "resources" ++ items_of st "tasks"))
              sl.*2
  | _ => false
  end.

(** ** More sample records *)

(** A stage whose flags are not booleans: a string, a number, [null]. *)
Definition loose_stage : pyval :=
  VDict [ ("tasks", VDict [ ("t1", VDict [("completed", VStr "false")]);
                            ("t2", VDict [("completed", num 0)]);
                            ("t3", VDict [("completed", VNone)]);
                            ("t4", VDict [("completed", num 1)]) ]) ].

Definition loose_record : pyval :=
  VDict [ ("stages", VDict [ ("s", loose_stage) ]);
          ("metadata", VDict [ ("total_progress", num 0) ]) ].

(** A file that holds stages but no metadata. *)
Definition stages_only : pyval := VDict [ ("stages", VDict []) ].

(** A record with a stage that is not part of the curriculum. *)
Definition extended_record : pyval :=
  VDict [ ("stages", VDict
            [ ("bonus", VDict [ ("name", VStr "Extra");
                                ("tasks", VDict [ ("x", done_task "x") ]) ]) ]);
          ("metadata", VDict [ ("start_date", VStr "2023-09-01");
                               ("note", VStr "kept") ]) ].

(** ** The record a mutator computes *)

(** What the four steps of [update_task] and [update_resource] make of the
    record, before anything is written: the flag, the stage aggregates,
    the total, the time stamp. *)
Definition with_flag (kind sid id : string) (b : bool) (data : pyval)
  : result pyval :=
  update_at ["stages"; sid; kind; id]
    (fun t => py_setitem t "completed" (VBool b)) data.

Definition with_stage_progress (sid : string) (data : pyval) : result pyval :=
  update_at ["stages"; sid] recompute_stage data.

Definition with_total_progress (data : pyval) : result pyval :=
  stages <- py_getitem data "stages" ;;
  total_progress <- mean_progress stages ;;
  update_at ["metadata"]
    (fun m => py_setitem m "total_progress" (VNum total_progress)) data.

Definition with_stamp (clk : clock) (data : pyval) : result pyval :=
  update_at ["metadata"]
    (fun m => py_setitem m "last_update" (VStr (stamp clk))) data.

Definition toggled (clk : clock) (kind sid id : string) (b : bool)
  (data : pyval) : result pyval :=
  d1 <- with_flag kind sid id b data ;;
  d2 <- with_stage_progress sid d1 ;;
  d3 <- with_total_progress d2 ;;
  with_stamp clk d3.

(** ** Binary64: the arithmetic of the program *)

(** A Python [float] is a binary64 number, and a finite binary64 number is
    a rational: [VNum] holds its exact value. An operation on floats returns
    the binary64 number nearest to the exact result, a tie going to the
    even significand; [/] on two [int]s returns the binary64 number nearest
    to the exact quotient in the same way. [fl] is that rounding. *)

(** The integer nearest to [n / d], a tie going to the even one;
    [0 <= n] and [0 < d]. *)
Definition round_half_even (n d : Z) : Z :=
  let q := (n / d)%Z in
  match (2 * (n mod d) ?= d)%Z with
  | Lt => q
  | Gt => (q + 1)%Z
  | Eq => if Z.even q then q else (q + 1)%Z
  end.

(** [2 ^ k <= a / d], for positive [a] and [d]. *)
Definition ge_pow2 (a d k : Z) : bool :=
  if (0 <=? k)%Z then (d * 2 ^ k <=? a)%Z else (d <=? a * 2 ^ (- k))%Z.

(** The rounding of [a / d] for positive [a] and [d]. With [e] the exponent
    of the quotient, [2 ^ e <= a / d < 2 ^ (e + 1)], a number of 53
    significant bits is a multiple of [2 ^ (e - 52)]; below [2 ^ -1022] the
    numbers are the multiples of [2 ^ -1074]. *)
Definition fl_pos (a d : Z) : Q :=
  let e0 := (Z.log2 a - Z.log2 d)%Z in
  let e := if ge_pow2 a d e0 then e0 else (e0 - 1)%Z in
  let k := (Z.max e (-1022) - 52)%Z in
  if (0 <=? k)%Z
  then inject_Z (round_half_even a (d * 2 ^ k) * 2 ^ k)
  else Qmake (round_half_even (a * 2 ^ (- k)) d) (Z.to_pos (2 ^ (- k))).

Definition fl (q : Qc) : Qc :=
  match Qnum q with
  | Z0 => 0%Qc
  | Zpos a => Q2Qc (fl_pos (Zpos a) (Zpos (Qden q)))
  | Zneg a => Q2Qc (- fl_pos (Zpos a) (Zpos (Qden q)))
  end.

(** The rounding overflows when it reaches [2 ^ 1024]. *)
Definition round64 (q : Qc) : option Qc :=
  let r := fl q in
  if bool_decide (- Qc_of_Z (2 ^ 1024) < r /\ r < Qc_of_Z (2 ^ 1024))%Qc
  then Some r
  else None.

(** The body of [update_stage_progress] on the stage object, in the
    arithmetic of the program: [completed / total_items] is the division
    of two [int]s, [* 100] the product of a float and [100.0]. The quotient
    lies between 0 and 1 and the product between 0 and 100, so neither
    rounding overflows. With no item at all the progress is the [int] 0. *)
Definition recompute_stage_b64 (stage : pyval) : result pyval :=
  tasks <- py_getitem stage "tasks" ;;
  resources <- py_get stage "resources" (VDict []) ;;
  task_values <- py_values tasks ;;
  completed_tasks <- count_completed task_values ;;
  resource_values <- py_values resources ;;
  completed_resources <- count_completed resource_values ;;
  len_tasks <- py_len tasks ;;
  len_resources <- py_len resources ;;
  let total_items := (len_tasks + len_resources)%nat in
  let progress :=
    if bool_decide (0 < total_items)%nat
    then fl (fl (Qc_of_nat (completed_tasks + completed_resources)
                   / Qc_of_nat total_items)
             * Qc_of_Z 100)
    else 0%Qc in
  stage1 <- py_setitem stage "progress" (VNum progress) ;;
  py_setitem stage1 "completed" (VBool (bool_decide (Qc_of_Z 100 ≤ progress)%Qc)).

Definition update_stage_progress_b64 (stage_id : string) : M unit :=
  data <~ get_data ;;
  data' <~ lift (update_at ["stages"; stage_id] recompute_stage_b64 data) ;;
  set_data data'.

(** [acc + v] as [sum] adds floats: the result is rounded. Where an
    addition rounds, this is one of several behaviours of Python: the sum
    of two [int]s is exact, and from Python 3.12 on [sum] carries the
    rounding errors of float additions along and adds them at the end.
    Where no addition rounds and every summand is a binary64 number
    ([exact_sums]) all of them give the exact sum, as this definition does.
    An [int] beyond the range of the floats raises [OverflowError] when it
    meets a float or the final division; a sum of floats beyond the range
    is an infinity in Python, which [VNum] cannot hold: that case is
    [OverflowError] here as well. *)
Definition py_add_b64 (acc : Qc) (v : pyval) : result Qc :=
  let add (q : Qc) :=
    match round64 (acc + q) with
    | Some r => Ok r
    | None => Raise OverflowError
    end in
  match v with
  | VNum q => add q
  | VBool b => add (if b then 1%Qc else 0%Qc)
  | _ => Raise TypeError
  end.

(** [sum(stage['progress'] for stage in stages.values()) / len(stages)] in
    the arithmetic of the program. *)
Definition mean_progress_b64 (stages : pyval) : result Qc :=
  values <- py_values stages ;;
  total <- foldM (fun (acc : Qc) (stage : pyval) =>
                    p <- py_getitem stage "progress" ;;
                    py_add_b64 acc p)
                 0%Qc values ;;
  n <- py_len stages ;;
  if bool_decide (n = 0%nat) then Raise ZeroDivisionError
  else match round64 (total / Qc_of_nat n) with
       | Some r => Ok r
       | None => Raise OverflowError
       end.

Definition update_total_progress_b64 : M unit :=
  data <~ get_data ;;
  data' <~ lift (stages <- py_getitem data "stages" ;;
                 total_progress <- mean_progress_b64 stages ;;
                 update_at ["metadata"]
                   (fun m => py_setitem m "total_progress" (VNum total_progress))
                   data) ;;
  set_data data'.

(** *** The two aggregates as binary64 expressions *)

(** [(c / n) * 100] *)
Definition progress_b64 (c n : nat) : Qc :=
  fl (fl (Qc_of_nat c / Qc_of_nat n) * Qc_of_Z 100).

(** [100 * c / n], the order of the specification. *)
Definition percentage_b64 (c n : nat) : Qc :=
  fl (fl (Qc_of_Z 100 * Qc_of_nat c) / Qc_of_nat n).

(** The sum from [acc], every addition rounded. *)
Fixpoint sum_b64 (acc : Qc) (ps : list Qc) : option Qc :=
  match ps with
  | [] => Some acc
  | p :: ps' =>
      match round64 (acc + p) with
      | Some acc' => sum_b64 acc' ps'
      | None => None
      end
  end.

(** [sum(ps) / len(ps)] *)
Definition mean_b64 (ps : list Qc) : option Qc :=
  match sum_b64 0 ps with
  | Some total => round64 (total / Qc_of_nat (length ps))
  | None => None
  end.



(** *** The rounding against the primitive floats *)

(** The float of a positive number of at most 53 bits, or of a power of 2. *)
Fixpoint float_of_positive (p : positive) : float :=
  match p with
  | xH => 1%float
  | xO p' => (2 * float_of_positive p')%float
  | xI p' => (2 * float_of_positive p' + 1)%float
  end.

Definition float_of_Z (z : Z) : float :=
  match z with
  | Z0 => 0%float
  | Zpos p => float_of_positive p
  | Zneg p => (- float_of_positive p)%float
  end.

(** The float whose value is [q], when [q] is a binary64 number. *)
Definition float_of_Qc (q : Qc) : float :=
  (float_of_Z (Qnum q) / float_of_positive (Qden q))%float.

(** [fl] gives the result of the primitive operations on [c / n] and on
    [(c / n) * 100]. *)
Definition fl_agrees (c n : nat) : bool :=
  let f := (float_of_Z (Z.of_nat c) / float_of_Z (Z.of_nat n))%float in
  PrimFloat.eqb (float_of_Qc (fl (Qc_of_nat c / Qc_of_nat n))) f
  && PrimFloat.eqb (float_of_Qc (progress_b64 c n)) (float_stage_progress
                                                       (float_of_Z (Z.of_nat c))
                                                       (float_of_Z (Z.of_nat n))).

(** The pairs [(c, n)] with [c <= n] and [1 <= n <= m]. *)
Definition count_pairs (m : nat) : list (nat * nat) :=
  n ← seq 1 m; c ← seq 0 (S n); [(c, n)].

(** [mean_b64] gives the result of the primitive operations. *)
Definition mean_agrees (ps : list Qc) : bool :=
  match mean_b64 ps with
  | Some r =>
      PrimFloat.eqb (float_of_Qc r)
        (float_mean (float_of_Qc <$> ps) (float_of_Z (Z.of_nat (length ps))))
  | None => false
  end.

(** ** Records for the aggregation in binary64 *)

(** A stage with three tasks, one of them done. *)
Definition third_stage : pyval :=
  VDict [ ("name", VStr "s"); ("completed", VBool false); ("progress", num 0);
          ("resources", VDict []);
          ("tasks", VDict [ ("t1", done_task "t1"); ("t2", task "t2");
                            ("t3", task "t3") ]) ].

Definition third_stage_record : pyval :=
  VDict [ ("stages", VDict [ ("s", third_stage) ]);
          ("metadata", VDict [ ("total_progress", num 0) ]) ].


(** A stage whose progress is an [int] beyond the range of the floats. *)
Definition huge_progress_record : pyval :=
  VDict [ ("stages", VDict
            [ ("a", VDict [("progress", num (10 ^ 400)); ("tasks", VDict [])]) ]);
          ("metadata", VDict [ ("total_progress", num 0) ]) ].

(** ** Valid records *)

Definition is_str_at (v : pyval) (k : string) : bool :=
  match py_getitem v k with
  | Ok (VStr _) => true
  | _ => false
  end.

(** A resource entry: name, URL and a boolean flag. *)
Definition valid_resource (item : pyval) : bool :=
  is_str_at item "name" && is_str_at item "url" && typed_item item.

(** A task entry: name and a boolean flag. *)
Definition valid_task (item : pyval) : bool :=
  is_str_at item "name" && typed_item item.

(** A stage: name, boolean flag, resources and tasks, and as progress the
    percentage of completed entries, the flag telling whether it is 100. *)
Definition valid_stage (st : pyval) : bool :=
  is_str_at st "name"
  && match py_getitem st "resources", py_getitem st "tasks" with
     | Ok (VDict resources), Ok (VDict tasks) =>
         forallb valid_resource resources.*2 && forallb valid_task tasks.*2
     | _, _ => false
     end
  && stage_consistent st
  && match py_getitem st "completed", stage_progress st with
     | Ok (VBool b), Some p => bool_decide (b = bool_decide (Qc_of_Z 100 ≤ p)%Qc)
     | _, _ => false
     end.

(** A progress record as the data model has it: valid stages, among them
    the whole curriculum, and the metadata with the two dates and the mean
    of the stage progresses. *)
Definition valid_record (data : pyval) : bool :=
  match py_getitem data "stages", py_getitem data "metadata" with
  | Ok (VDict sl), Ok metadata =>
      forallb valid_stage sl.*2
      && complete_record data
      && aggregates_consistent data
      && is_str_at metadata "start_date"
      && is_str_at metadata "last_update"
  | _, _ => false
  end.

(** * Properties *)

(** ** The [result] monad *)

Lemma rbind_Ok {A B} (m : result A) (f : A -> result B) (b : B) :
  rbind m f = Ok b <-> exists a, m = Ok a /\ f a = Ok b.
Proof.
  destruct m as [a|e]; simpl; split.
  - eauto.
  - intros (a' & [= ->] & H). exact H.
  - discriminate.
  - intros (a' & [=] & _).
Qed.

(** Splits a hypothesis [x <- m ;; k = Ok b] into [m = Ok a] and [k a = Ok b]. *)
Tactic Notation "bind_inv" hyp(H) "as" ident(a) ident(Ha) :=
  apply rbind_Ok in H; destruct H as (a & Ha & H).

(** ** Dictionaries *)

Section Dict.
Context {A : Type}.
Implicit Types (d : list (string * A)) (k : string) (v : A).

Lemma dict_get_set_eq k v d : dict_get k (dict_set k v d) = Some v.
Proof.
  induction d as [|[k' v'] d IH]; simpl.
  - by rewrite decide_True.
  - destruct (decide (k = k')) as [->|Hne]; simpl.
    + by rewrite decide_True.
    + by rewrite decide_False.
Qed.

Lemma dict_get_set_ne k k' v d :
  k <> k' -> dict_get k' (dict_set k v d) = dict_get k' d.
Proof.
  intros Hne. induction d as [|[k0 v0] d IH]; simpl.
  - rewrite decide_False; [done | congruence].
  - destruct (decide (k = k0)) as [->|Hne0]; simpl.
    + rewrite !decide_False; [done | congruence ..].
    + destruct (decide (k' = k0)); [done | exact IH].
Qed.

Lemma dict_set_same k v d : dict_get k d = Some v -> dict_set k v d = d.
Proof.
  induction d as [|[k' v'] d IH]; simpl; [done|].
  destruct (decide (k = k')) as [->|Hne].
  - by intros [= ->].
  - intros H. by rewrite IH.
Qed.

Lemma dict_has_true k d : dict_has k d = true <-> is_Some (dict_get k d).
Proof.
  unfold dict_has. destruct (dict_get k d); split; try done.
Qed.

Lemma dict_has_false k d : dict_has k d = false <-> dict_get k d = None.
Proof. unfold dict_has. by destruct (dict_get k d). Qed.

Lemma dict_has_set k k' v d :
  dict_has k' d = true -> dict_has k' (dict_set k v d) = true.
Proof.
  rewrite !dict_has_true. destruct (decide (k = k')) as [->|Hne].
  - rewrite dict_get_set_eq. by eexists.
  - by rewrite dict_get_set_ne.
Qed.

Lemma dict_get_Some_keys k v d : dict_get k d = Some v -> k ∈ d.*1.
Proof.
  induction d as [|[k' v'] d IH]; simpl; [done|].
  destruct (decide (k = k')) as [->|Hne]; [left | right; auto].
Qed.

Lemma dict_get_Some_values k v d : dict_get k d = Some v -> v ∈ d.*2.
Proof.
  induction d as [|[k' v'] d IH]; simpl; [done|].
  destruct (decide (k = k')) as [->|Hne].
  - intros [= ->]. left.
  - right; auto.
Qed.

Lemma dict_get_keys_Some k d : k ∈ d.*1 -> is_Some (dict_get k d).
Proof.
  induction d as [|[k' v'] d IH]; simpl.
  - by intros ?%elem_of_nil.
  - intros [->|Hin]%elem_of_cons.
    + rewrite decide_True; [by eexists | done].
    + destruct (decide (k = k')); [by eexists | auto].
Qed.
End Dict.

(** ** Loops *)

Section FoldM.
Context {A B : Type} (f : A -> B -> result A).

Lemma foldM_invariant (P : A -> Prop) l a a' :
  (forall a b a', f a b = Ok a' -> P a -> P a') ->
  foldM f a l = Ok a' -> P a -> P a'.
Proof.
  intros Hstep. revert a. induction l as [|b l IH]; simpl; intros a H Ha.
  - by injection H as <-.
  - bind_inv H as a1 H1. eauto.
Qed.

Lemma foldM_fixed l a :
  (forall b, b ∈ l -> f a b = Ok a) -> foldM f a l = Ok a.
Proof.
  induction l as [|b l IH]; simpl; intros H; [done|].
  rewrite H by left. simpl. apply IH. intros b' Hb'. apply H. by right.
Qed.

(** Every element visited leaves a mark [Q b] that later iterations keep. *)
Lemma foldM_establish (Q : B -> A -> Prop) l a a' :
  (forall a b a', f a b = Ok a' -> Q b a') ->
  (forall a b a' b', f a b = Ok a' -> Q b' a -> Q b' a') ->
  foldM f a l = Ok a' -> forall b, b ∈ l -> Q b a'.
Proof.
  intros Hnew Hkeep. revert a. induction l as [|b0 l IH]; simpl; intros a H b Hb.
  - by apply elem_of_nil in Hb.
  - bind_inv H as a1 H1. apply elem_of_cons in Hb as [->|Hb].
    + eapply (foldM_invariant (Q b0)); [|exact H|]; eauto.
    + eauto.
Qed.
End FoldM.

(** ** Python operations *)

Lemma py_getitem_Ok v k x :
  py_getitem v k = Ok x <-> exists d, v = VDict d /\ dict_get k d = Some x.
Proof.
  split.
  - destruct v as [| | | | |d]; simpl; try discriminate.
    destruct (dict_get k d) eqn:E; [|discriminate]. intros [= ->]. eauto.
  - intros (d & -> & H). simpl. by rewrite H.
Qed.

Lemma py_getitem_KeyError v k k' :
  py_getitem v k = Raise (KeyError k') <->
  exists d, v = VDict d /\ dict_get k d = None /\ k' = k.
Proof.
  split.
  - destruct v as [| | | | |d]; simpl; try discriminate.
    destruct (dict_get k d) eqn:E; [discriminate|]. intros [= ->]. eauto.
  - intros (d & -> & H & ->). simpl. by rewrite H.
Qed.

Lemma py_setitem_Ok v k x v' :
  py_setitem v k x = Ok v' <-> exists d, v = VDict d /\ v' = VDict (dict_set k x d).
Proof.
  split.
  - destruct v as [| | | | |d]; simpl; try discriminate. intros [= <-]. eauto.
  - by intros (d & -> & ->).
Qed.

(** ** Migration: the loop over the default tasks *)

Lemma merge_task_contains dt c t c' :
  merge_task dt c t = Ok c' -> py_contains t c' = Ok true.
Proof.
  unfold merge_task. intros H. bind_inv H as present Hp. destruct present.
  - by injection H as <-.
  - bind_inv H as v Hv. apply py_setitem_Ok in H as (d & -> & ->).
    simpl. unfold dict_has. by rewrite dict_get_set_eq.
Qed.

Lemma merge_task_mono dt c t c' k :
  merge_task dt c t = Ok c' ->
  py_contains k c = Ok true -> py_contains k c' = Ok true.
Proof.
  unfold merge_task. intros H. bind_inv H as present Hp. destruct present.
  - by injection H as <-.
  - bind_inv H as v Hv. apply py_setitem_Ok in H as (d & -> & ->).
    simpl. intros [= Hk]. by rewrite dict_has_set.
Qed.

Lemma merge_task_fixed dt c t :
  py_contains t c = Ok true -> merge_task dt c t = Ok c.
Proof. unfold merge_task. by intros ->. Qed.

Lemma merge_task_getitem dt c t c' k x :
  merge_task dt c t = Ok c' -> py_getitem c k = Ok x -> py_getitem c' k = Ok x.
Proof.
  unfold merge_task. intros H. bind_inv H as present Hp. destruct present.
  - by injection H as <-.
  - bind_inv H as v Hv. apply py_setitem_Ok in H as (d & -> & ->).
    simpl in Hp. injection Hp as Hp. apply dict_has_false in Hp.
    rewrite !py_getitem_Ok. intros (d' & [= <-] & Hk).
    eexists; split; [done|]. rewrite dict_get_set_ne; [done|]. congruence.
Qed.

Lemma merge_task_absent dt c t c' k :
  merge_task dt c t = Ok c' -> k <> t ->
  py_getitem c k = Raise (KeyError k) -> py_getitem c' k = Raise (KeyError k).
Proof.
  unfold merge_task. intros H. bind_inv H as present Hp. destruct present.
  - by injection H as <-.
  - bind_inv H as v Hv. apply py_setitem_Ok in H as (d & -> & ->).
    intros Hne. rewrite !py_getitem_KeyError. intros (d' & [= <-] & Hk & _).
    eexists; split; [done|]. by rewrite dict_get_set_ne.
Qed.

Lemma merge_task_insert dt c t c' v :
  merge_task dt c t = Ok c' -> py_getitem dt t = Ok v ->
  py_getitem c t = Raise (KeyError t) -> py_getitem c' t = Ok v.
Proof.
  intros H Hv. rewrite py_getitem_KeyError. intros (d & -> & Hk & _).
  unfold merge_task in H. simpl in H. apply dict_has_false in Hk as Hh.
  rewrite Hh, Hv in H. simpl in H. injection H as <-.
  simpl. by rewrite dict_get_set_eq.
Qed.

Lemma merge_tasks_idem dt cur cur' :
  merge_tasks dt cur = Ok cur' -> merge_tasks dt cur' = Ok cur'.
Proof.
  unfold merge_tasks. intros H. bind_inv H as ks Hks. rewrite Hks. simpl.
  apply foldM_fixed. intros t Ht. apply merge_task_fixed.
  revert t Ht.
  eapply (foldM_establish _ (fun t c => py_contains t c = Ok true)); [| |exact H].
  - apply merge_task_contains.
  - intros ????. apply merge_task_mono.
Qed.

Lemma merge_tasks_getitem dt cur cur' k x :
  merge_tasks dt cur = Ok cur' ->
  py_getitem cur k = Ok x -> py_getitem cur' k = Ok x.
Proof.
  unfold merge_tasks. intros H. bind_inv H as ks Hks.
  eapply (foldM_invariant _ (fun c => py_getitem c k = Ok x)); [|exact H].
  intros ???. apply merge_task_getitem.
Qed.

Lemma merge_tasks_insert dt cur cur' k v :
  merge_tasks dt cur = Ok cur' -> py_getitem dt k = Ok v ->
  py_getitem cur k = Raise (KeyError k) -> py_getitem cur' k = Ok v.
Proof.
  unfold merge_tasks. intros H Hv. bind_inv H as ks Hks.
  assert (k ∈ ks) as Hin.
  { apply py_getitem_Ok in Hv as (dl & -> & Hv). injection Hks as <-.
    by eapply dict_get_Some_keys. }
  clear Hks. revert cur H. induction ks as [|t ks IH]; simpl; intros cur H Hk.
  - by apply elem_of_nil in Hin.
  - bind_inv H as c1 H1. destruct (decide (k = t)) as [->|Hne].
    + eapply (foldM_invariant _ (fun c => py_getitem c t = Ok v)); [|exact H|].
      * intros ???. apply merge_task_getitem.
      * by eapply merge_task_insert.
    + apply elem_of_cons in Hin as [?|Hin]; [done|].
      apply (IH Hin c1 H). by eapply merge_task_absent.
Qed.

Lemma merge_tasks_absent dt cur cur' k :
  merge_tasks dt cur = Ok cur' -> py_getitem dt k = Raise (KeyError k) ->
  py_getitem cur k = Raise (KeyError k) -> py_getitem cur' k = Raise (KeyError k).
Proof.
  unfold merge_tasks. intros H Hv. bind_inv H as ks Hks.
  assert (k ∉ ks) as Hin.
  { apply py_getitem_KeyError in Hv as (dl & -> & Hv & _). injection Hks as <-.
    intros [x Hx]%dict_get_keys_Some. congruence. }
  clear Hks. revert cur H. induction ks as [|t ks IH]; simpl; intros cur H Hk.
  - by injection H as <-.
  - bind_inv H as c1 H1. apply not_elem_of_cons in Hin as [Hne Hin].
    apply (IH Hin c1 H). by eapply merge_task_absent.
Qed.

Lemma merge_tasks_total dl c :
  exists c', merge_tasks (VDict dl) (VDict c) = Ok (VDict c').
Proof.
  unfold merge_tasks. simpl.
  assert (forall ks, ks ⊆ dl.*1 -> forall c, exists c',
            foldM (merge_task (VDict dl)) (VDict c) ks = Ok (VDict c')) as H.
  { induction ks as [|t ks IH]; simpl; intros Hsub c0; [eauto|].
    assert (t ∈ dl.*1) as [v Hv]%dict_get_keys_Some by (apply Hsub; left).
    unfold merge_task at 1. simpl. rewrite Hv.
    destruct (dict_has t c0); simpl; apply IH; set_solver. }
  by apply H.
Qed.

Lemma merge_tasks_self dl : merge_tasks (VDict dl) (VDict dl) = Ok (VDict dl).
Proof.
  unfold merge_tasks. simpl. apply foldM_fixed. intros t Ht.
  apply merge_task_fixed. simpl. f_equal.
  apply dict_has_true. by apply dict_get_keys_Some.
Qed.

(** ** Migration: a stage already present *)

Lemma fix_present_stage_inv dst st st' :
  fix_present_stage dst st = Ok st' ->
  exists d d1 cur dtasks cur',
    st = VDict d /\
    (if dict_has "resources" d then d1 = d
     else exists r, py_getitem dst "resources" = Ok r /\
                    d1 = dict_set "resources" r d) /\
    dict_get "tasks" d1 = Some cur /\
    py_getitem dst "tasks" = Ok dtasks /\
    merge_tasks dtasks cur = Ok cur' /\
    st' = VDict (dict_set "tasks" cur' d1).
Proof.
  unfold fix_present_stage. intros H.
  bind_inv H as has Hhas. bind_inv H as st1 Hst1. bind_inv H as cur Hcur.
  bind_inv H as dtasks Hdt. bind_inv H as cur' Hm.
  apply py_setitem_Ok in H as (d1 & -> & ->).
  apply py_getitem_Ok in Hcur as (? & [= <-] & Hcur).
  destruct has.
  - injection Hst1 as ->. injection Hhas as Hhas.
    exists d1, d1, cur, dtasks, cur'. by rewrite Hhas.
  - bind_inv Hst1 as r Hr. apply py_setitem_Ok in Hst1 as (d & -> & [= ->]).
    injection Hhas as Hhas.
    exists d, (dict_set "resources" r d), cur, dtasks, cur'. rewrite Hhas. eauto 10.
Qed.

Lemma fix_present_stage_has_resources dst st st' :
  fix_present_stage dst st = Ok st' -> py_contains "resources" st' = Ok true.
Proof.
  intros (d & d1 & cur & dtasks & cur' & -> & Hd1 & _ & _ & _ & ->)
    %fix_present_stage_inv.
  simpl. f_equal. apply dict_has_set.
  destruct (dict_has "resources" d) eqn:Hh.
  - by subst.
  - destruct Hd1 as (r & _ & ->). apply dict_has_true.
    rewrite dict_get_set_eq. by eexists.
Qed.

Lemma fix_present_stage_idem dst st st' :
  fix_present_stage dst st = Ok st' -> fix_present_stage dst st' = Ok st'.
Proof.
  intros H. pose proof (fix_present_stage_has_resources _ _ _ H) as Hres.
  apply fix_present_stage_inv in H
    as (d & d1 & cur & dtasks & cur' & -> & _ & _ & Hdt & Hm & ->).
  unfold fix_present_stage. rewrite Hres. simpl.
  rewrite dict_get_set_eq, Hdt. simpl.
  rewrite (merge_tasks_idem _ _ _ Hm). simpl.
  by rewrite dict_set_same by apply dict_get_set_eq.
Qed.

Lemma fix_present_stage_self dst :
  template_stage_ok dst = true -> fix_present_stage dst dst = Ok dst.
Proof.
  unfold template_stage_ok. intros H.
  destruct (py_getitem dst "resources") as [r|] eqn:Hr; [|done].
  destruct (py_getitem dst "tasks") as [[| | | | |dl]|] eqn:Ht; try done.
  apply py_getitem_Ok in Hr as (d & -> & Hr).
  apply py_getitem_Ok in Ht as (? & [= <-] & Ht).
  unfold fix_present_stage. simpl. unfold dict_has. rewrite Hr. simpl.
  rewrite Ht. simpl. rewrite merge_tasks_self. simpl.
  by rewrite dict_set_same.
Qed.

Lemma stage_shape_ok_inv st :
  stage_shape_ok st = true ->
  exists d c, st = VDict d /\ dict_get "tasks" d = Some (VDict c).
Proof.
  unfold stage_shape_ok.
  destruct (py_getitem st "tasks") as [[| | | | |c]|] eqn:Ht; try done.
  apply py_getitem_Ok in Ht as (d & -> & Ht). eauto.
Qed.

Lemma template_stage_shape dst :
  template_stage_ok dst = true -> stage_shape_ok dst = true.
Proof.
  unfold template_stage_ok, stage_shape_ok.
  destruct (py_getitem dst "resources"); [|done].
  by destruct (py_getitem dst "tasks") as [[]|].
Qed.

Lemma fix_present_stage_total dst st :
  template_stage_ok dst = true -> stage_shape_ok st = true ->
  exists st', fix_present_stage dst st = Ok st' /\ stage_shape_ok st' = true.
Proof.
  unfold template_stage_ok. intros H (d & c & -> & Hc)%stage_shape_ok_inv.
  destruct (py_getitem dst "resources") as [r|] eqn:Hr; [|done].
  destruct (py_getitem dst "tasks") as [[| | | | |dl]|] eqn:Ht; try done.
  destruct (merge_tasks_total dl c) as [c' Hc'].
  unfold fix_present_stage, stage_shape_ok. simpl.
  destruct (dict_has "resources" d); simpl.
  - rewrite Hc, Ht. simpl. rewrite Hc'. simpl. eexists; split; [done|].
    simpl. by rewrite dict_get_set_eq.
  - rewrite Hr. simpl. rewrite dict_get_set_ne by done.
    rewrite Hc, Ht. simpl. rewrite Hc'. simpl. eexists; split; [done|].
    simpl. by rewrite dict_get_set_eq.
Qed.

(** The task mapping of the stage goes through [merge_tasks]. *)
Lemma fix_present_stage_tasks dst st st' cur :
  fix_present_stage dst st = Ok st' ->
  py_getitem st "tasks" = Ok cur ->
  exists dtasks cur',
    py_getitem dst "tasks" = Ok dtasks /\
    merge_tasks dtasks cur = Ok cur' /\
    py_getitem st' "tasks" = Ok cur'.
Proof.
  intros (d & d1 & cur0 & dtasks & cur' & -> & Hd1 & Hcur & Hdt & Hm & ->)
    %fix_present_stage_inv Ht.
  apply py_getitem_Ok in Ht as (? & [= <-] & Ht).
  assert (cur0 = cur) as ->.
  { destruct (dict_has "resources" d).
    - subst. congruence.
    - destruct Hd1 as (r & _ & ->). rewrite dict_get_set_ne in Hcur by done.
      congruence. }
  exists dtasks, cur'. repeat split; [done..|].
  simpl. by rewrite dict_get_set_eq.
Qed.

(** A ["resources"] mapping that is there stays as it is, whatever it holds. *)
Lemma fix_present_stage_resources_kept dst st st' r :
  fix_present_stage dst st = Ok st' ->
  py_getitem st "resources" = Ok r -> py_getitem st' "resources" = Ok r.
Proof.
  intros (d & d1 & cur0 & dtasks & cur' & -> & Hd1 & _ & _ & _ & ->)
    %fix_present_stage_inv Hr.
  apply py_getitem_Ok in Hr as (? & [= <-] & Hr).
  assert (dict_has "resources" d = true) as Hh
    by (apply dict_has_true; by eexists).
  rewrite Hh in Hd1. subst d1. simpl.
  rewrite dict_get_set_ne by done. by rewrite Hr.
Qed.

(** Without a ["resources"] key the stage gets the default mapping. *)
Lemma fix_present_stage_resources_added dst st st' :
  fix_present_stage dst st = Ok st' ->
  py_getitem st "resources" = Raise (KeyError "resources") ->
  exists r, py_getitem dst "resources" = Ok r /\
            py_getitem st' "resources" = Ok r.
Proof.
  intros (d & d1 & cur0 & dtasks & cur' & -> & Hd1 & _ & _ & _ & ->)
    %fix_present_stage_inv Hr.
  apply py_getitem_KeyError in Hr as (? & [= <-] & Hr & _).
  apply dict_has_false in Hr. rewrite Hr in Hd1.
  destruct Hd1 as (r & Hdr & ->). exists r. split; [done|]. simpl.
  rewrite dict_get_set_ne by done. by rewrite dict_get_set_eq.
Qed.

(** Nothing else of the stage changes: name, flag, progress, other keys. *)
Lemma fix_present_stage_other dst st st' k :
  fix_present_stage dst st = Ok st' ->
  k <> "resources" -> k <> "tasks" ->
  py_getitem st' k = py_getitem st k.
Proof.
  intros (d & d1 & cur0 & dtasks & cur' & -> & Hd1 & _ & _ & _ & ->)
    %fix_present_stage_inv Hk1 Hk2.
  simpl. rewrite dict_get_set_ne by done.
  destruct (dict_has "resources" d).
  - by subst.
  - destruct Hd1 as (r & _ & ->). by rewrite dict_get_set_ne.
Qed.

(** ** Migration: one iteration and the whole loop *)

Lemma fix_stage_inv D data sid data' :
  fix_stage D data sid = Ok data' <->
  exists dd sl dst new,
    data = VDict dd /\
    dict_get "stages" dd = Some (VDict sl) /\
    py_getitem D sid = Ok dst /\
    match dict_get sid sl with
    | Some st => fix_present_stage dst st = Ok new
    | None => new = dst
    end /\
    data' = VDict (dict_set "stages" (VDict (dict_set sid new sl)) dd).
Proof.
  unfold fix_stage. split.
  - intros H. bind_inv H as stages Hs. bind_inv H as present Hp.
    bind_inv H as stages' Hs'.
    apply py_getitem_Ok in Hs as (dd & -> & Hs).
    apply py_setitem_Ok in H as (? & [= <-] & ->).
    destruct present.
    + bind_inv Hs' as st Hst. bind_inv Hs' as dst Hdst. bind_inv Hs' as st' Hfix.
      apply py_getitem_Ok in Hst as (sl & -> & Hst).
      apply py_setitem_Ok in Hs' as (? & [= <-] & ->).
      exists dd, sl, dst, st'. by rewrite Hst.
    + bind_inv Hs' as dst Hdst.
      apply py_setitem_Ok in Hs' as (sl & -> & ->).
      injection Hp as Hp%dict_has_false.
      exists dd, sl, dst, dst. by rewrite Hp.
  - intros (dd & sl & dst & new & -> & Hs & Hdst & Hnew & ->).
    simpl. rewrite Hs. simpl. unfold dict_has.
    destruct (dict_get sid sl) as [st|] eqn:Hst; simpl.
    + rewrite ?Hst, ?Hdst. simpl. by rewrite Hnew.
    + rewrite Hdst. simpl. by subst.
Qed.

Lemma fix_stage_fixed_iff D data sid :
  fix_stage D data sid = Ok data <->
  exists dd sl st dst,
    data = VDict dd /\
    dict_get "stages" dd = Some (VDict sl) /\
    dict_get sid sl = Some st /\
    py_getitem D sid = Ok dst /\
    fix_present_stage dst st = Ok st.
Proof.
  rewrite fix_stage_inv. split.
  - intros (dd & sl & dst & new & -> & Hs & Hdst & Hnew & [= Hdd]).
    assert (dict_get sid sl = Some new) as Hget.
    { apply (f_equal (dict_get "stages")) in Hdd.
      rewrite dict_get_set_eq, Hs in Hdd. injection Hdd as Hsl.
      rewrite Hsl. apply dict_get_set_eq. }
    rewrite Hget in Hnew. exists dd, sl, new, dst. eauto.
  - intros (dd & sl & st & dst & -> & Hs & Hst & Hdst & Hfix).
    exists dd, sl, dst, st. rewrite Hst. repeat split; try done.
    by rewrite (dict_set_same sid), (dict_set_same "stages").
Qed.

Lemma fix_stage_stage_other D data sid data' sid' :
  fix_stage D data sid = Ok data' -> sid' <> sid ->
  stage_of data' sid' = stage_of data sid'.
Proof.
  intros (dd & sl & dst & new & -> & Hs & _ & _ & ->)%fix_stage_inv Hne.
  unfold stage_of. simpl. rewrite dict_get_set_eq, Hs. simpl.
  by rewrite dict_get_set_ne.
Qed.

Lemma fix_stage_stage_present D data sid data' st :
  fix_stage D data sid = Ok data' -> stage_of data sid = Ok st ->
  exists dst st',
    py_getitem D sid = Ok dst /\ fix_present_stage dst st = Ok st' /\
    stage_of data' sid = Ok st'.
Proof.
  intros (dd & sl & dst & new & -> & Hs & Hdst & Hnew & ->)%fix_stage_inv.
  unfold stage_of. simpl. rewrite dict_get_set_eq, Hs. simpl.
  rewrite dict_get_set_eq. destruct (dict_get sid sl); [|done].
  intros [= ->]. eauto.
Qed.

Lemma fix_stage_stage_absent D data sid data' :
  fix_stage D data sid = Ok data' ->
  stage_of data sid = Raise (KeyError sid) ->
  exists dst, py_getitem D sid = Ok dst /\ stage_of data' sid = Ok dst.
Proof.
  intros (dd & sl & dst & new & -> & Hs & Hdst & Hnew & ->)%fix_stage_inv.
  unfold stage_of. simpl. rewrite dict_get_set_eq, Hs. simpl.
  rewrite dict_get_set_eq. destruct (dict_get sid sl); [done|].
  subst. eauto.
Qed.

(** Whatever lies beside ["stages"] in the record, the metadata among it,
    is not touched. *)
Lemma fix_stage_toplevel D data sid data' k :
  fix_stage D data sid = Ok data' -> k <> "stages" ->
  py_getitem data' k = py_getitem data k.
Proof.
  intros (dd & sl & dst & new & -> & Hs & _ & _ & ->)%fix_stage_inv Hne.
  simpl. by rewrite dict_get_set_ne.
Qed.

Section MigrationLoop.
Variable D : dict.
Hypothesis D_ok :
  forall sid dst, dict_get sid D = Some dst -> template_stage_ok dst = true.

Lemma template_lookup sid dst :
  py_getitem (VDict D) sid = Ok dst -> template_stage_ok dst = true.
Proof. intros (? & [= <-] & H)%py_getitem_Ok. eauto. Qed.

Lemma fix_stage_idem data sid data' :
  fix_stage (VDict D) data sid = Ok data' ->
  fix_stage (VDict D) data' sid = Ok data'.
Proof.
  intros (dd & sl & dst & new & -> & Hs & Hdst & Hnew & ->)%fix_stage_inv.
  apply fix_stage_fixed_iff.
  eexists _, _, new, dst. repeat split; [apply dict_get_set_eq..|done|].
  destruct (dict_get sid sl).
  - by eapply fix_present_stage_idem.
  - subst. apply fix_present_stage_self. by eapply template_lookup.
Qed.

Lemma fix_stage_keeps_fixed data sid data' sid' :
  fix_stage (VDict D) data sid = Ok data' ->
  fix_stage (VDict D) data sid' = Ok data ->
  fix_stage (VDict D) data' sid' = Ok data'.
Proof.
  intros H Hfixed. destruct (decide (sid' = sid)) as [->|Hne].
  { rewrite Hfixed in H. injection H as <-. done. }
  apply fix_stage_inv in H
    as (dd & sl & dst & new & -> & Hs & Hdst & Hnew & ->).
  apply fix_stage_fixed_iff in Hfixed
    as (? & sl' & st' & dst' & [= <-] & Hs' & Hst' & Hdst' & Hfix').
  assert (sl' = sl) as -> by congruence.
  apply fix_stage_fixed_iff.
  eexists _, _, st', dst'. repeat split; [apply dict_get_set_eq| |done..].
  by rewrite dict_get_set_ne.
Qed.

Lemma migrate_fixed ks data data' :
  foldM (fix_stage (VDict D)) data ks = Ok data' ->
  forall sid, sid ∈ ks -> fix_stage (VDict D) data' sid = Ok data'.
Proof.
  apply (foldM_establish _ (fun sid d => fix_stage (VDict D) d sid = Ok d)).
  - apply fix_stage_idem.
  - intros ????. apply fix_stage_keeps_fixed.
Qed.

Theorem migrate_idem ks data data' :
  foldM (fix_stage (VDict D)) data ks = Ok data' ->
  foldM (fix_stage (VDict D)) data' ks = Ok data'.
Proof. intros H. apply foldM_fixed. by eapply migrate_fixed. Qed.

Lemma migrate_stage_untouched ks data data' sid :
  foldM (fix_stage (VDict D)) data ks = Ok data' -> sid ∉ ks ->
  stage_of data' sid = stage_of data sid.
Proof.
  revert data. induction ks as [|k ks IH]; simpl; intros data H Hnin.
  - by injection H as <-.
  - bind_inv H as d1 H1. apply not_elem_of_cons in Hnin as [Hne Hnin].
    rewrite (IH _ H Hnin). by eapply fix_stage_stage_other.
Qed.

Lemma migrate_toplevel ks data data' k :
  foldM (fix_stage (VDict D)) data ks = Ok data' -> k <> "stages" ->
  py_getitem data' k = py_getitem data k.
Proof.
  intros H Hne. symmetry.
  eapply (foldM_invariant _ (fun d => py_getitem data k = py_getitem d k));
    [|exact H|done].
  intros d sid d' Hd ->. symmetry. by eapply fix_stage_toplevel.
Qed.

Lemma migrate_stage_present ks data data' sid st :
  foldM (fix_stage (VDict D)) data ks = Ok data' -> sid ∈ ks ->
  stage_of data sid = Ok st ->
  exists dst st',
    dict_get sid D = Some dst /\ fix_present_stage dst st = Ok st' /\
    stage_of data' sid = Ok st'.
Proof.
  revert data st. induction ks as [|k ks IH]; simpl; intros data st H Hin Hst.
  { by apply elem_of_nil in Hin. }
  bind_inv H as d1 H1. destruct (decide (sid = k)) as [->|Hne].
  - destruct (fix_stage_stage_present _ _ _ _ _ H1 Hst)
      as (dst & st1 & Hdst & Hfix & Hst1).
    apply py_getitem_Ok in Hdst as (? & [= <-] & Hdst).
    exists dst, st1. split; [done|]. split; [done|].
    destruct (decide (k ∈ ks)) as [Hin'|Hnin].
    + destruct (IH _ _ H Hin' Hst1) as (dst' & st2 & Hdst' & Hfix' & Hst2).
      assert (dst' = dst) as -> by congruence.
      rewrite (fix_present_stage_idem _ _ _ Hfix) in Hfix'. congruence.
    + by rewrite (migrate_stage_untouched _ _ _ _ H Hnin).
  - apply elem_of_cons in Hin as [?|Hin]; [done|].
    apply (IH d1 st H Hin).
    by rewrite (fix_stage_stage_other _ _ _ _ _ H1 Hne).
Qed.

Lemma migrate_stage_absent ks data data' sid :
  foldM (fix_stage (VDict D)) data ks = Ok data' -> sid ∈ ks ->
  stage_of data sid = Raise (KeyError sid) ->
  exists dst, dict_get sid D = Some dst /\ stage_of data' sid = Ok dst.
Proof.
  revert data. induction ks as [|k ks IH]; simpl; intros data H Hin Hst.
  { by apply elem_of_nil in Hin. }
  bind_inv H as d1 H1. destruct (decide (sid = k)) as [->|Hne].
  - destruct (fix_stage_stage_absent _ _ _ _ H1 Hst) as (dst & Hdst & Hst1).
    pose proof (template_lookup _ _ Hdst) as Hok.
    apply py_getitem_Ok in Hdst as (? & [= <-] & Hdst).
    exists dst. split; [done|].
    destruct (decide (k ∈ ks)) as [Hin'|Hnin].
    + destruct (migrate_stage_present _ _ _ _ _ H Hin' Hst1)
        as (dst' & st2 & Hdst' & Hfix' & Hst2).
      assert (dst' = dst) as -> by congruence.
      rewrite (fix_present_stage_self _ Hok) in Hfix'. congruence.
    + by rewrite (migrate_stage_untouched _ _ _ _ H Hnin).
  - apply elem_of_cons in Hin as [?|Hin]; [done|].
    apply (IH d1 H Hin).
    by rewrite (fix_stage_stage_other _ _ _ _ _ H1 Hne).
Qed.

Lemma fix_stage_total K data sid :
  sid ∈ D.*1 -> sid ∈ K -> well_shaped_for K data = true ->
  exists data', fix_stage (VDict D) data sid = Ok data' /\
                well_shaped_for K data' = true.
Proof.
  intros [dst Hdst]%dict_get_keys_Some HK. unfold well_shaped_for.
  destruct (py_getitem data "stages") as [[| | | | |sl]|] eqn:Hs; try done.
  apply py_getitem_Ok in Hs as (dd & -> & Hs).
  rewrite forallb_forall. intros Hall.
  pose proof (D_ok _ _ Hdst) as Hok.
  assert (exists new,
            match dict_get sid sl with
            | Some st => fix_present_stage dst st = Ok new
            | None => new = dst
            end /\ stage_shape_ok new = true) as (new & Hnew & Hshape).
  { specialize (Hall sid). rewrite <-list_elem_of_In in Hall.
    specialize (Hall HK). destruct (dict_get sid sl) as [st|].
    - by apply fix_present_stage_total.
    - exists dst. split; [done|]. by apply template_stage_shape. }
  eexists. split.
  - apply fix_stage_inv. exists dd, sl, dst, new. simpl. by rewrite Hdst.
  - simpl. rewrite dict_get_set_eq. apply forallb_forall. intros k Hk.
    destruct (decide (k = sid)) as [->|Hne].
    + by rewrite dict_get_set_eq.
    + rewrite dict_get_set_ne by done. by apply Hall.
Qed.

Theorem migrate_total K ks data :
  ks ⊆ D.*1 -> ks ⊆ K -> well_shaped_for K data = true ->
  exists data', foldM (fix_stage (VDict D)) data ks = Ok data'.
Proof.
  revert data. induction ks as [|k ks IH]; simpl; intros data HD HK Hdata.
  - eauto.
  - destruct (fix_stage_total K data k) as (d1 & -> & Hd1);
      [set_solver..|done|].
    simpl. apply IH; [set_solver..|done].
Qed.
End MigrationLoop.

(** ** Migration against the curriculum of the program *)

Lemma default_stages_ok sid dst :
  dict_get sid default_stages = Some dst -> template_stage_ok dst = true.
Proof.
  intros H%dict_get_Some_values.
  assert (Forall (fun d => template_stage_ok d = true) default_stages.*2) as HF
    by repeat constructor.
  rewrite Forall_forall in HF. apply HF. by apply list_elem_of_In.
Qed.

Lemma fix_missing_data_loop clk data :
  fix_missing_data clk data
  = foldM (fix_stage (VDict default_stages)) data default_stages.*1.
Proof. reflexivity. Qed.

Lemma well_shaped_stage data sid st :
  well_shaped data = true -> sid ∈ default_stages.*1 ->
  stage_of data sid = Ok st -> stage_shape_ok st = true.
Proof.
  unfold well_shaped, well_shaped_for, stage_of. intros H Hin.
  destruct (py_getitem data "stages") as [[| | | | |sl]|]; try done. simpl.
  rewrite forallb_forall in H. specialize (H sid).
  rewrite <-list_elem_of_In in H. specialize (H Hin).
  destruct (dict_get sid sl); [|done]. by intros [= <-].
Qed.

Lemma default_stage_lookup clk sid dst :
  stage_of (get_default_data clk) sid = Ok dst <->
  dict_get sid default_stages = Some dst.
Proof.
  change (stage_of (get_default_data clk) sid)
    with (py_getitem (VDict default_stages) sid).
  rewrite py_getitem_Ok. split.
  - by intros (? & [= <-] & H).
  - eauto.
Qed.

Lemma fix_missing_data_total clk x :
  well_shaped x = true -> exists y, fix_missing_data clk x = Ok y.
Proof.
  intros Hx. rewrite fix_missing_data_loop.
  by apply (migrate_total default_stages default_stages_ok
              default_stages.*1 default_stages.*1 x).
Qed.

(** C2 (as amended): on a record of the expected shape the migration
    returns, and in every default stage the record already holds it
    inserts each default task the stage lacks, keeps each task the stage
    has, keeps the ["resources"] mapping as it is when the stage has one
    (adding no resource to it), puts the default mapping when the stage has
    none, and changes no other key of the stage. *)
Theorem fix_missing_data_adds_missing clk x :
  well_shaped x = true ->
  exists y, fix_missing_data clk x = Ok y /\
    forall sid dst st,
      stage_of (get_default_data clk) sid = Ok dst ->
      stage_of x sid = Ok st ->
      exists st', stage_of y sid = Ok st' /\
        (forall tid t, item_of x sid "tasks" tid = Ok t ->
                       item_of y sid "tasks" tid = Ok t) /\
        (forall tid t, item_of (get_default_data clk) sid "tasks" tid = Ok t ->
                       item_of x sid "tasks" tid = Raise (KeyError tid) ->
                       item_of y sid "tasks" tid = Ok t) /\
        (forall r, py_getitem st "resources" = Ok r ->
                   py_getitem st' "resources" = Ok r) /\
        (py_getitem st "resources" = Raise (KeyError "resources") ->
         py_getitem st' "resources" = py_getitem dst "resources") /\
        (forall k, k <> "resources" -> k <> "tasks" ->
                   py_getitem st' k = py_getitem st k).
Proof.
  intros Hx. destruct (fix_missing_data_total clk x Hx) as [y Hy].
  exists y. split; [done|]. rewrite fix_missing_data_loop in Hy.
  intros sid dst st Hdst Hst.
  pose proof Hdst as Hd%default_stage_lookup.
  pose proof (dict_get_Some_keys _ _ _ Hd) as Hin.
  destruct (migrate_stage_present _ _ _ _ _ _ Hy Hin Hst)
    as (dst' & st' & Hd' & Hfix & Hst').
  assert (dst' = dst) as -> by congruence.
  destruct (stage_shape_ok_inv _ (well_shaped_stage _ _ _ Hx Hin Hst))
    as (d & c & -> & Hc).
  destruct (fix_present_stage_tasks _ _ _ (VDict c) Hfix)
    as (dtasks & cur' & Hdt & Hm & Hcur'); [by simpl; rewrite Hc|].
  exists st'. split; [done|]. unfold item_of. rewrite Hst, Hst', Hdst. simpl.
  rewrite Hc, Hcur', Hdt. simpl. repeat split.
  - intros tid t Ht. eapply merge_tasks_getitem; [exact Hm | exact Ht].
  - intros tid t Hdef Hmiss.
    eapply merge_tasks_insert; [exact Hm | exact Hdef | exact Hmiss].
  - intros r Hr. exact (fix_present_stage_resources_kept _ _ _ _ Hfix Hr).
  - intros Hr.
    destruct (fix_present_stage_resources_added _ _ _ Hfix Hr) as (r & -> & ->).
    done.
  - intros k Hk1 Hk2. exact (fix_present_stage_other _ _ _ _ Hfix Hk1 Hk2).
Qed.

Lemma fix_missing_data_adds_missing_witness :
  exists y, fix_missing_data clock1 early_record = Ok y /\
    item_of y "stage1" "tasks" "task1"
      = Ok (done_task "Зарегистрироваться на Coding Game") /\
    item_of y "stage1" "tasks" "task5"
      = Ok (task "Создать программу для учета финансов").
Proof.
  destruct (fix_missing_data_adds_missing clock1 early_record) as (y & Hy & H);
    [reflexivity|].
  exists y. split; [exact Hy|].
  destruct (H "stage1" _ _ eq_refl eq_refl) as (st' & _ & Hkept & Hnew & _).
  split.
  - apply Hkept. reflexivity.
  - apply Hnew; reflexivity.
Defined.

(** C2 as stated fails: a stage that has a ["resources"] mapping with one
    resource keeps that mapping; the default resources it lacks are not
    inserted. *)
Lemma fix_missing_data_resources_not_merged :
  well_shaped one_resource_record = true /\
  item_of (get_default_data clock1) "stage1" "resources" "resource2"
    = Ok (resource "Интерактивный тренажер Hexlet"
            "https://ru.hexlet.io/courses/python-basics") /\
  item_of one_resource_record "stage1" "resources" "resource2"
    = Raise (KeyError "resource2") /\
  exists y, fix_missing_data clock1 one_resource_record = Ok y /\
    item_of y "stage1" "resources" "resource2" = Raise (KeyError "resource2").
Proof.
  split; [reflexivity|]. split; [reflexivity|]. split; [reflexivity|].
  eexists. split; [vm_compute; reflexivity|]. reflexivity.
Qed.

(** C3: on a record of the expected shape the migration returns; what it
    returns is a fixed point of the migration, whenever the clock is read;
    the fresh default record is one, too. *)
Theorem fix_missing_data_idempotent clk clk' :
  (forall x, well_shaped x = true ->
             exists y, fix_missing_data clk x = Ok y /\
                       fix_missing_data clk' y = Ok y) /\
  (forall x y, fix_missing_data clk x = Ok y -> fix_missing_data clk' y = Ok y) /\
  fix_missing_data clk (get_default_data clk') = Ok (get_default_data clk').
Proof.
  assert (forall x y, fix_missing_data clk x = Ok y ->
                      fix_missing_data clk' y = Ok y) as Hidem.
  { intros x y. rewrite !fix_missing_data_loop.
    apply migrate_idem, default_stages_ok. }
  split; [|split; [exact Hidem|]].
  - intros x [y Hy]%(fix_missing_data_total clk). eauto.
  - destruct clk' as [d t]. vm_compute. reflexivity.
Qed.

Lemma fix_missing_data_idempotent_witness :
  exists y, fix_missing_data clock0 early_record = Ok y /\
            fix_missing_data clock1 y = Ok y.
Proof.
  apply (proj1 (fix_missing_data_idempotent clock0 clock1) early_record).
  reflexivity.
Defined.

(** ** Aggregation *)

Lemma update_at_stage data sid f st st' :
  stage_of data sid = Ok st -> f st = Ok st' ->
  exists dd sl,
    data = VDict dd /\ dict_get "stages" dd = Some (VDict sl) /\
    dict_get sid sl = Some st /\
    update_at ["stages"; sid] f data
    = Ok (VDict (dict_set "stages" (VDict (dict_set sid st' sl)) dd)).
Proof.
  unfold stage_of. intros H Hf. bind_inv H as stages Hs.
  apply py_getitem_Ok in Hs as (dd & -> & Hs).
  apply py_getitem_Ok in H as (sl & -> & Hst).
  exists dd, sl. repeat split; [done..|].
  simpl. rewrite Hs. simpl. rewrite Hst. simpl. by rewrite Hf.
Qed.

Lemma typed_item_flag item :
  typed_item item = true ->
  exists b, py_getitem item "completed" = Ok (VBool b) /\ is_completed item = b.
Proof.
  unfold typed_item, is_completed.
  destruct (py_getitem item "completed") as [[|b| | | |]|]; try done.
  exists b. by destruct b.
Qed.

Lemma count_completed_from n items :
  forallb typed_item items = true ->
  foldM (fun (n : nat) (item : pyval) =>
           c <- py_getitem item "completed" ;;
           Ok (if py_truthy c then S n else n)) n items
  = Ok (n + length (List.filter is_completed items))%nat.
Proof.
  revert n. induction items as [|item items IH]; simpl; intros n H.
  - f_equal. lia.
  - apply andb_true_iff in H as [Hitem Hitems].
    destruct (typed_item_flag _ Hitem) as (b & -> & ->). simpl.
    rewrite IH by done. destruct b; simpl; f_equal; lia.
Qed.

Lemma count_completed_typed items :
  forallb typed_item items = true ->
  count_completed items = Ok (length (List.filter is_completed items)).
Proof. apply count_completed_from. Qed.

Lemma progress_formula c n :
  (if bool_decide (0 < n)%nat
   then (Qc_of_nat c / Qc_of_nat n * Qc_of_Z 100)%Qc else 0%Qc)
  = if bool_decide (n = 0%nat) then 0%Qc else percentage c n.
Proof.
  unfold percentage. destruct n as [|n].
  - done.
  - rewrite bool_decide_true by lia. rewrite bool_decide_false by lia.
    unfold Qcdiv. ring.
Qed.

Lemma recompute_stage_typed st :
  typed_stage st = true ->
  let total := (total_in st "tasks" + total_in st "resources")%nat in
  let completed := (completed_in st "tasks" + completed_in st "resources")%nat in
  let progress :=
    if bool_decide (total = 0%nat) then 0%Qc else percentage completed total in
  exists d, st = VDict d /\
    recompute_stage st
    = Ok (VDict (dict_set "completed"
                   (VBool (bool_decide (Qc_of_Z 100 ≤ progress)%Qc))
                   (dict_set "progress" (VNum progress) d))).
Proof.
  unfold typed_stage, total_in, completed_in, items_of. intros H.
  apply andb_true_iff in H as [Ht Hr].
  destruct (py_getitem st "tasks") as [[| | | | |tasks]|] eqn:Htasks;
    try done.
  apply py_getitem_Ok in Htasks as (d & -> & Htasks). exists d. split; [done|].
  unfold recompute_stage. simpl in *. rewrite Htasks. simpl.
  rewrite (count_completed_typed _ Ht). simpl.
  destruct (dict_get "resources" d) as [[| | | | |resources]|] eqn:Hres;
    try done; simpl.
  - rewrite (count_completed_typed _ Hr). simpl.
    by rewrite !length_fmap, progress_formula.
  - rewrite !length_fmap, progress_formula. by rewrite !Nat.add_0_r.
Qed.

(** In exact arithmetic: on a stage whose entries are typed,
    [update_stage_progress] does not raise; it stores
    [100 * completed / total] as the progress, [0] for a stage without
    entries, and sets the flag exactly when the progress is at least 100;
    2 of 3 tasks and 1 of 2 resources give 60. *)
Theorem update_stage_progress_spec sid w st :
  stage_of (self_data w) sid = Ok st -> typed_stage st = true ->
  let total := (total_in st "tasks" + total_in st "resources")%nat in
  let completed := (completed_in st "tasks" + completed_in st "resources")%nat in
  let progress :=
    if bool_decide (total = 0%nat) then 0%Qc else percentage completed total in
  exists data' st',
    update_stage_progress sid w = (Ok tt, World data' (disk w)) /\
    stage_of data' sid = Ok st' /\
    py_getitem st' "progress" = Ok (VNum progress) /\
    py_getitem st' "completed"
      = Ok (VBool (bool_decide (Qc_of_Z 100 ≤ progress)%Qc)) /\
    (total_in st "tasks" = 3%nat -> total_in st "resources" = 2%nat ->
     completed_in st "tasks" = 2%nat -> completed_in st "resources" = 1%nat ->
     progress = Qc_of_Z 60).
Proof.
  intros Hst Htyped total completed progress.
  destruct (recompute_stage_typed st Htyped) as (d & -> & Hre).
  fold total completed progress in Hre.
  destruct (update_at_stage _ _ _ _ _ Hst Hre) as (dd & sl & Hdata & Hs & _ & Hup).
  eexists _, _. split; [|split; [|split; [|split]]].
  - unfold update_stage_progress, sbind, get_data, lift, set_data.
    by rewrite Hup.
  - unfold stage_of. simpl. rewrite dict_get_set_eq. simpl.
    by rewrite dict_get_set_eq.
  - simpl. rewrite dict_get_set_ne by done. by rewrite dict_get_set_eq.
  - simpl. by rewrite dict_get_set_eq.
  - subst total completed progress. intros -> -> -> ->. simpl.
    apply Qc_is_canon. reflexivity.
Qed.

Lemma update_stage_progress_spec_witness :
  exists data' st',
    update_stage_progress "s" (World sample_stage_record ∅)
      = (Ok tt, World data' ∅) /\
    stage_of data' "s" = Ok st' /\
    py_getitem st' "progress" = Ok (VNum (Qc_of_Z 60)) /\
    py_getitem st' "completed" = Ok (VBool false).
Proof.
  destruct (update_stage_progress_spec "s" (World sample_stage_record ∅)
              sample_stage eq_refl eq_refl)
    as (data' & st' & Hrun & Hst' & Hp & Hc & H60).
  exists data', st'. split; [exact Hrun|]. split; [exact Hst'|].
  rewrite <-(H60 eq_refl eq_refl eq_refl eq_refl). split; [exact Hp|].
  rewrite Hc. reflexivity.
Defined.

Lemma sum_progress_from acc values ps :
  Forall2 (fun st p => py_getitem st "progress" = Ok (VNum p)) values ps ->
  foldM (fun (acc : Qc) (stage : pyval) =>
           p <- py_getitem stage "progress" ;;
           py_add acc p) acc values
  = Ok (acc + foldr Qcplus 0 ps)%Qc.
Proof.
  intros H. revert acc. induction H as [|st p values ps Hp _ IH]; simpl; intros acc.
  - by rewrite Qcplus_0_r.
  - rewrite Hp. simpl. rewrite IH. by rewrite Qcplus_assoc.
Qed.

Lemma mean_progress_typed sl ps :
  Forall2 (fun st p => py_getitem st "progress" = Ok (VNum p)) sl.*2 ps ->
  mean_progress (VDict sl)
  = if bool_decide (sl = []) then Raise ZeroDivisionError else Ok (mean ps).
Proof.
  intros H. unfold mean_progress, mean. simpl.
  rewrite (sum_progress_from _ _ _ H). simpl. rewrite Qcplus_0_l.
  apply Forall2_length in H. rewrite length_fmap in H. rewrite <-H.
  by destruct sl.
Qed.

(** In exact arithmetic: when every stage has a number as its progress,
    [update_total_progress] stores their unweighted mean in the metadata;
    without any stage it raises [ZeroDivisionError] and stores nothing;
    the mean of 0, 50 and 100 is 50. *)
Theorem update_total_progress_spec w dd sl md ps :
  self_data w = VDict dd ->
  dict_get "stages" dd = Some (VDict sl) ->
  dict_get "metadata" dd = Some (VDict md) ->
  Forall2 (fun st p => py_getitem st "progress" = Ok (VNum p)) sl.*2 ps ->
  (sl <> [] ->
   update_total_progress w
   = (Ok tt,
      World (VDict (dict_set "metadata"
                      (VDict (dict_set "total_progress" (VNum (mean ps)) md))
                      dd))
            (disk w))) /\
  (sl = [] -> update_total_progress w = (Raise ZeroDivisionError, w)) /\
  (ps = [Qc_of_Z 0; Qc_of_Z 50; Qc_of_Z 100] -> mean ps = Qc_of_Z 50).
Proof.
  intros Hdata Hs Hm Hps.
  pose proof (mean_progress_typed _ _ Hps) as Hmean.
  unfold update_total_progress, sbind, get_data, lift, set_data.
  rewrite Hdata. simpl. rewrite Hs. simpl. rewrite Hmean.
  split; [|split].
  - intros Hne. rewrite bool_decide_false by done. simpl. by rewrite Hm.
  - by intros ->.
  - intros ->. apply Qc_is_canon. reflexivity.
Qed.

Lemma update_total_progress_spec_witness :
  exists data',
    update_total_progress (World three_stage_record ∅) = (Ok tt, World data' ∅) /\
    (metadata <- py_getitem data' "metadata" ;;
     py_getitem metadata "total_progress") = Ok (VNum (Qc_of_Z 50)).
Proof.
  destruct (update_total_progress_spec (World three_stage_record ∅) _ _ _
              [Qc_of_Z 0; Qc_of_Z 50; Qc_of_Z 100]
              eq_refl eq_refl eq_refl)
    as (Hrun & _ & H50).
  { repeat constructor. }
  eexists. split; [apply Hrun; discriminate|].
  rewrite (H50 eq_refl). reflexivity.
Defined.

(** ** Loading and importing *)

Lemma load_data_cases clk w :
  (exists v, load_data clk w = (Ok v, w)) /\
  (unusable clk (disk w !! filename) = true ->
   load_data clk w = (Ok (get_default_data clk), w)).
Proof.
  unfold load_data, unusable, sbind, path_exists, try_except, read_json,
    lift, sret.
  cbv beta.
  destruct (disk w !! filename) as [[|[v|]]|] eqn:E; simpl; rewrite ?E; simpl;
    eauto.
  destruct (fix_missing_data clk v); simpl; eauto. split; [eauto|done].
Qed.

(** C8: [load_data] never raises and leaves memory and disk as they are;
    when the backing file is absent, cannot be opened, is not JSON or has a
    shape on which the migration raises, it returns the fresh default
    record. That record is a valid record: its stages are those of the
    curriculum, [stage1] to [stage4] with their names, resource ids and
    task ids, every entry with its name (a resource with its URL) and the
    flag [false], every stage with progress 0 and the flag [false]; the
    metadata holds the day and the time of the call and the total
    progress 0; the migration leaves it as it is. *)
Theorem load_data_fails_soft clk w :
  (exists v, load_data clk w = (Ok v, w)) /\
  (unusable clk (disk w !! filename) = true ->
   load_data clk w = (Ok (get_default_data clk), w)) /\
  let fresh := get_default_data clk in
  valid_record fresh = true /\
  no_item_completed fresh = true /\
  (stages <- py_getitem fresh "stages" ;; py_keys stages)
  = Ok ["stage1"; "stage2"; "stage3"; "stage4"] /\
  (stages <- py_getitem fresh "stages" ;;
   values <- py_values stages ;;
   Ok ((fun st => (py_getitem st "name",
                   (resources <- py_getitem st "resources" ;; py_keys resources),
                   (tasks <- py_getitem st "tasks" ;; py_keys tasks),
                   py_getitem st "progress", py_getitem st "completed"))
         <$> values))
  = Ok [ (Ok (VStr "Основы Python (3-8 недель)"),
          Ok ["resource1"; "resource2"; "resource3"; "resource4"],
          Ok ["task1"; "task2"; "task3"; "task4"; "task5"],
          Ok (num 0), Ok (VBool false));
         (Ok (VStr "Освоение Git и GitHub (1-2 недели)"),
          Ok ["resource1"; "resource2"; "resource3"],
          Ok ["task1"; "task2"; "task3"; "task4"; "task5"],
          Ok (num 0), Ok (VBool false));
         (Ok (VStr "Углубленное изучение Python (1-2 месяца)"),
          Ok ["resource1"; "resource2"],
          Ok ["task1"; "task2"; "task3"; "task4"; "task5"; "task6"; "task7";
              "task8"],
          Ok (num 0), Ok (VBool false));
         (Ok (VStr "Выбор специализации (2-4 месяца)"),
          Ok ["web_resource1"; "web_resource2"; "web_resource3"; "ds_resource1"],
          Ok ["task1"; "task2"; "task3"; "task4"; "task5"; "task6"],
          Ok (num 0), Ok (VBool false)) ] /\
  py_getitem fresh "metadata"
  = Ok (VDict [ ("start_date", VStr (today clk));
                ("last_update", VStr (stamp clk));
                ("total_progress", num 0) ]) /\
  forall clk', fix_missing_data clk' fresh = Ok fresh.
Proof.
  split; [apply load_data_cases|]. split; [apply load_data_cases|].
  destruct clk as [d t]. cbv zeta.
  split; [vm_compute; reflexivity|]. split; [vm_compute; reflexivity|].
  split; [reflexivity|]. split; [reflexivity|]. split; [reflexivity|].
  intros [d' t']. vm_compute. reflexivity.
Qed.

Lemma load_data_fails_soft_witness :
  load_data clock1 default_world = (Ok (get_default_data clock1), default_world).
Proof.
  apply (proj1 (proj2 (load_data_fails_soft clock1 default_world))).
  reflexivity.
Defined.

(** C4: [import_progress] never raises; on a file that is absent, cannot
    be opened, is not JSON or makes the migration raise it returns [False]
    with the record in memory and the disk unchanged; whenever it returns
    [False] nothing has changed. *)
Theorem import_progress_failure clk p w :
  (unusable clk (disk w !! p) = true ->
   import_progress clk p w = (Ok false, w)) /\
  (forall w', import_progress clk p w = (Ok false, w') -> w' = w) /\
  (exists b w', import_progress clk p w = (Ok b, w')).
Proof.
  unfold import_progress, unusable, sbind, try_except, read_json, lift,
    set_data, sret.
  cbv beta.
  destruct (disk w !! p) as [[|[v|]]|]; simpl;
    try (split; [done|split; [by intros w' [= <-]|eauto]]).
  destruct (fix_missing_data clk v); simpl.
  - split; [done|]. split; [by intros w' [=]|eauto].
  - split; [done|split; [by intros w' [= <-]|eauto]].
Qed.

Lemma import_progress_failure_witness :
  import_progress clock1 filename default_world = (Ok false, default_world).
Proof.
  apply (proj1 (import_progress_failure clock1 filename default_world)).
  reflexivity.
Defined.

(** ** Mutators *)

Lemma update_at_item_error data sid kind id f e :
  item_of data sid kind id = Raise e ->
  update_at ["stages"; sid; kind; id] f data = Raise e.
Proof.
  unfold item_of, stage_of. simpl.
  destruct (py_getitem data "stages") as [stages|]; simpl; [|done].
  destruct (py_getitem stages sid) as [st|]; simpl; [|done].
  destruct (py_getitem st kind) as [items|]; simpl; [|done].
  by intros ->.
Qed.

Lemma unknown_ref_error data sid kind id :
  unknown_ref data sid kind id ->
  exists k, item_of data sid kind id = Raise (KeyError k).
Proof.
  unfold item_of. intros [H|(st & items & Hst & Hitems & Hid)].
  - exists sid. by rewrite H.
  - exists id. rewrite Hst. simpl. by rewrite Hitems.
Qed.

(** C9: [update_task] and [update_resource] called with a stage, task or
    resource that the record does not hold raise [KeyError]; the record in
    memory and the disk stay as they were. *)
Theorem update_rejects_unknown_reference clk w sid id b :
  (unknown_ref (self_data w) sid "tasks" id ->
   exists k, update_task clk sid id b w = (Raise (KeyError k), w)) /\
  (unknown_ref (self_data w) sid "resources" id ->
   exists k, update_resource clk sid id b w = (Raise (KeyError k), w)).
Proof.
  split; intros [k Hk]%unknown_ref_error; exists k;
    unfold update_task, update_resource, sbind, get_data, lift;
    by rewrite (update_at_item_error _ _ _ _ _ _ Hk).
Qed.

Lemma update_rejects_unknown_reference_witness :
  (exists k, update_task clock1 "stage9" "task1" true default_world
             = (Raise (KeyError k), default_world)) /\
  (exists k, update_resource clock1 "stage1" "resource9" true default_world
             = (Raise (KeyError k), default_world)).
Proof.
  split.
  - apply (proj1 (update_rejects_unknown_reference
                    clock1 default_world "stage9" "task1" true)).
    left. reflexivity.
  - apply (proj2 (update_rejects_unknown_reference
                    clock1 default_world "stage1" "resource9" true)).
    right. eexists _, _. repeat split; reflexivity.
Defined.

(** ** Saving and exporting *)

(** [save_data] on a record with a metadata mapping: the stamp goes into
    the record in memory, then the record is written, if it can be. *)
Lemma save_data_run clk w dd md :
  self_data w = VDict dd -> dict_get "metadata" dd = Some (VDict md) ->
  let data' :=
    VDict (dict_set "metadata"
             (VDict (dict_set "last_update" (VStr (stamp clk)) md)) dd) in
  save_data clk w
  = match disk w !! filename with
    | Some Locked => (Raise PermissionError, World data' (disk w))
    | _ => (Ok tt, World data' (<[filename := Text (Some data')]> (disk w)))
    end.
Proof.
  intros Hdata Hm data'.
  unfold save_data, sbind, get_data, lift, set_data, write_json. simpl.
  rewrite Hdata. simpl. rewrite Hm. simpl.
  by destruct (disk w !! filename) as [[]|].
Qed.

(** C10: [export_progress] never changes the record in memory, its
    [last_update] included, and writes that record to the path when the
    path can be written; [save_data] first puts the clock's reading into
    [metadata.last_update] and then writes the record so changed. *)
Theorem export_keeps_save_stamps :
  (forall p w,
     self_data (export_progress p w).2 = self_data w /\
     (disk w !! p <> Some Locked ->
      export_progress p w
      = (Ok tt, World (self_data w)
                  (<[p := Text (Some (self_data w))]> (disk w))))) /\
  (forall clk w dd md,
     self_data w = VDict dd -> dict_get "metadata" dd = Some (VDict md) ->
     let data' :=
       VDict (dict_set "metadata"
                (VDict (dict_set "last_update" (VStr (stamp clk)) md)) dd) in
     self_data (save_data clk w).2 = data' /\
     (disk w !! filename <> Some Locked ->
      save_data clk w
      = (Ok tt, World data' (<[filename := Text (Some data')]> (disk w))))).
Proof.
  split.
  - intros p w. unfold export_progress, sbind, get_data, write_json. simpl.
    destruct (disk w !! p) as [[]|]; simpl; split; try done.
  - intros clk w dd md Hdata Hm data'.
    rewrite (save_data_run clk w dd md Hdata Hm).
    destruct (disk w !! filename) as [[]|]; simpl; split; try done.
Qed.

Lemma export_keeps_save_stamps_witness :
  (export_progress "copy.json" default_world).2.(self_data)
    = get_default_data clock0 /\
  (metadata <- py_getitem (save_data clock1 default_world).2.(self_data)
                 "metadata" ;;
   py_getitem metadata "last_update") = Ok (VStr "2024-03-05 18:30:00").
Proof.
  split.
  - apply (proj1 export_keeps_save_stamps "copy.json" default_world).
  - destruct (proj2 export_keeps_save_stamps clock1 default_world _ _
                eq_refl eq_refl) as [-> _].
    reflexivity.
Defined.

(** ** Round trip through the backing file *)

Lemma dict_get_Some_elem {A} k (v : A) d :
  dict_get k d = Some v -> (k, v) ∈ d.
Proof.
  induction d as [|[k' v'] d IH]; simpl; [done|].
  destruct (decide (k = k')) as [->|Hne].
  - intros [= ->]. left.
  - right; auto.
Qed.

Lemma stage_complete_fixed dst st :
  stage_complete dst st = true -> fix_present_stage dst st = Ok st.
Proof.
  unfold stage_complete.
  destruct (py_contains "resources" st) as [[]|] eqn:Hres; try done.
  destruct (py_getitem st "tasks") as [[| | | | |c]|] eqn:Hc; try done.
  destruct (py_getitem dst "tasks") as [[| | | | |dl]|] eqn:Hdl; try done.
  intros Hall.
  assert (merge_tasks (VDict dl) (VDict c) = Ok (VDict c)) as Hm.
  { unfold merge_tasks. simpl. apply foldM_fixed. intros t Ht.
    apply merge_task_fixed. simpl. f_equal.
    rewrite forallb_forall in Hall. apply Hall. by apply list_elem_of_In. }
  unfold fix_present_stage. rewrite Hres. simpl. rewrite Hc, Hdl. simpl.
  rewrite Hm. simpl.
  apply py_getitem_Ok in Hc as (d & -> & Hc). simpl.
  by rewrite dict_set_same.
Qed.

Lemma complete_record_fixed clk x :
  complete_record x = true -> fix_missing_data clk x = Ok x.
Proof.
  unfold complete_record. intros H. rewrite fix_missing_data_loop.
  destruct (py_getitem x "stages") as [[| | | | |sl]|] eqn:Hs; try done.
  apply py_getitem_Ok in Hs as (dd & -> & Hs).
  rewrite forallb_forall in H.
  apply foldM_fixed. intros sid [dst Hdst]%dict_get_keys_Some.
  specialize (H (sid, dst)). rewrite <-list_elem_of_In in H.
  specialize (H (dict_get_Some_elem _ _ _ Hdst)). simpl in H.
  destruct (dict_get sid sl) as [st|] eqn:Hst; [|done].
  apply fix_stage_fixed_iff. exists dd, sl, st, dst.
  repeat split; [done..| |by apply stage_complete_fixed].
  apply py_getitem_Ok. eauto.
Qed.

Lemma load_data_reads clk w v :
  disk w !! filename = Some (Text (Some v)) ->
  fix_missing_data clk v = Ok v ->
  load_data clk w = (Ok v, w).
Proof.
  intros Hfile Hfix.
  unfold load_data, sbind, path_exists, try_except, read_json, lift.
  rewrite Hfile. simpl. by rewrite Hfile, Hfix.
Qed.

(** What [save_data] followed by [load_data] gives on a record that holds
    the whole curriculum. *)
Lemma save_then_load clk clk' w dd md :
  self_data w = VDict dd -> dict_get "metadata" dd = Some (VDict md) ->
  complete_record (self_data w) = true ->
  disk w !! filename <> Some Locked ->
  let x' :=
    VDict (dict_set "metadata"
             (VDict (dict_set "last_update" (VStr (stamp clk)) md)) dd) in
  let w1 := World x' (<[filename := Text (Some x')]> (disk w)) in
  save_data clk w = (Ok tt, w1) /\ load_data clk' w1 = (Ok x', w1).
Proof.
  intros Hdata Hm Hcomplete Hfile x' w1. split.
  - rewrite (save_data_run clk w dd md Hdata Hm).
    by destruct (disk w !! filename) as [[]|].
  - apply load_data_reads.
    + simpl. apply lookup_insert_eq.
    + apply complete_record_fixed. rewrite Hdata in Hcomplete.
      unfold complete_record in *. simpl in *.
      by rewrite dict_get_set_ne.
Qed.

(** C5 (as amended): for a record in memory that holds the whole
    curriculum and has its metadata, with a backing file that can be
    written, [save_data] followed by [load_data] returns the record as
    [save_data] left it in memory: the record with [metadata.last_update]
    replaced by the time of the save. It is the record as it was before the
    save when that field already held this time. *)
Theorem save_load_round_trip clk clk' w dd md :
  self_data w = VDict dd -> dict_get "metadata" dd = Some (VDict md) ->
  complete_record (self_data w) = true ->
  disk w !! filename <> Some Locked ->
  exists w1,
    save_data clk w = (Ok tt, w1) /\
    load_data clk' w1 = (Ok (self_data w1), w1) /\
    self_data w1
    = VDict (dict_set "metadata"
               (VDict (dict_set "last_update" (VStr (stamp clk)) md)) dd) /\
    (dict_get "last_update" md = Some (VStr (stamp clk)) ->
     self_data w1 = self_data w).
Proof.
  intros Hdata Hm Hcomplete Hfile.
  destruct (save_then_load clk clk' w dd md Hdata Hm Hcomplete Hfile)
    as [Hsave Hload].
  eexists. split; [exact Hsave|]. split; [exact Hload|]. split; [done|].
  intros Hlast. simpl. rewrite Hdata.
  by rewrite (dict_set_same "last_update"), (dict_set_same "metadata").
Qed.

Lemma save_load_round_trip_witness :
  exists w1,
    save_data clock1 (World (get_default_data clock0) ∅) = (Ok tt, w1) /\
    load_data clock0 w1 = (Ok (self_data w1), w1).
Proof.
  destruct (save_load_round_trip clock1 clock0
              (World (get_default_data clock0) ∅) _ _ eq_refl eq_refl)
    as (w1 & Hsave & Hload & _).
  - reflexivity.
  - simpl. rewrite lookup_empty. discriminate.
  - exists w1. split; [exact Hsave | exact Hload].
Defined.

(** C5 as stated fails: saving the default record of one day on a later
    day and loading it gives a record that differs from the one saved, in
    [metadata.last_update]. *)
Lemma save_load_changes_last_update :
  let x := get_default_data clock0 in
  complete_record x = true /\
  exists w1 x',
    save_data clock1 (World x ∅) = (Ok tt, w1) /\
    load_data clock1 w1 = (Ok x', w1) /\
    x' <> x.
Proof.
  intros x. split; [reflexivity|].
  destruct (save_then_load clock1 clock1 (World x ∅) _ _ eq_refl eq_refl)
    as [Hsave Hload].
  - reflexivity.
  - simpl. rewrite lookup_empty. discriminate.
  - eexists _, _. split; [exact Hsave|]. split; [exact Hload|].
    intros H.
    apply (f_equal (fun v => metadata <- py_getitem v "metadata" ;;
                             py_getitem metadata "last_update")) in H.
    vm_compute in H. discriminate.
Qed.

(** ** The aggregates invariant *)

Lemma forallb_dict_set {A} (P : A -> bool) k v (d : list (string * A)) :
  P v = true -> forallb P d.*2 = true -> forallb P (dict_set k v d).*2 = true.
Proof.
  intros Hv. induction d as [|[k' v'] d IH]; simpl.
  - by rewrite Hv.
  - intros [Hv' Hd]%andb_true_iff. destruct (decide (k = k')); simpl.
    + by rewrite Hv.
    + rewrite Hv'. by apply IH.
Qed.

Lemma dict_set_set {A} k (v v' : A) d :
  dict_set k v (dict_set k v' d) = dict_set k v d.
Proof.
  induction d as [|[k0 v0] d IH]; simpl.
  - by rewrite decide_True.
  - destruct (decide (k = k0)) as [->|Hne]; simpl.
    + by rewrite decide_True.
    + by rewrite decide_False, IH.
Qed.

Lemma dict_set_nonempty {A} k (v : A) d : dict_set k v d <> [].
Proof. destruct d as [|[k' v'] d]; simpl; [done|]. by destruct (decide (k = k')). Qed.

Lemma update_at_nested p1 p2 f v :
  update_at (p1 ++ p2) f v = update_at p1 (update_at p2 f) v.
Proof.
  revert v. induction p1 as [|k p1 IH]; simpl; intros v; [done|].
  destruct (py_getitem v k); simpl; [|done]. by rewrite IH.
Qed.

Lemma percentage_zero c : percentage c 0 = 0%Qc.
Proof.
  unfold percentage, Qcdiv.
  assert (/ Qc_of_nat 0 = 0)%Qc as -> by (apply Qc_is_canon; reflexivity).
  apply Qcmult_0_r.
Qed.

Lemma typed_items_lookup il id item :
  forallb typed_item il.*2 = true -> dict_get id il = Some item ->
  exists it, item = VDict it.
Proof.
  rewrite forallb_forall. intros Hall Hitem%dict_get_Some_values.
  apply list_elem_of_In, Hall, typed_item_flag in Hitem as (b & Hb & _).
  apply py_getitem_Ok in Hb as (it & -> & _). eauto.
Qed.

(** Setting the flag of an entry of a typed stage leaves a typed stage. *)
Lemma set_flag_typed st kind id item b :
  kind = "tasks" \/ kind = "resources" ->
  typed_stage st = true ->
  (items <- py_getitem st kind ;; py_getitem items id) = Ok item ->
  exists st1,
    update_at [kind; id] (fun t => py_setitem t "completed" (VBool b)) st
    = Ok st1 /\
    typed_stage st1 = true.
Proof.
  intros Hkind Htyped H. bind_inv H as items Hitems.
  apply py_getitem_Ok in Hitems as (d & -> & Hitems).
  apply py_getitem_Ok in H as (il & -> & Hitem).
  assert (forallb typed_item il.*2 = true) as Hil.
  { unfold typed_stage in Htyped. simpl in Htyped.
    apply andb_true_iff in Htyped as [Ht Hr].
    destruct Hkind as [-> | ->]; rewrite Hitems in *; done. }
  destruct (typed_items_lookup _ _ _ Hil Hitem) as [it ->].
  eexists. split.
  { simpl. rewrite Hitems. simpl. by rewrite Hitem. }
  set (item1 := VDict (dict_set "completed" (VBool b) it)).
  assert (typed_item item1 = true) as Hitem1.
  { unfold typed_item, item1. simpl. by rewrite dict_get_set_eq. }
  pose proof (forallb_dict_set typed_item id item1 il Hitem1 Hil) as Hil1.
  unfold typed_stage in *. simpl in *.
  destruct Hkind as [-> | ->].
  - rewrite dict_get_set_eq, dict_get_set_ne by done. simpl.
    apply andb_true_iff in Htyped as [_ ->]. by rewrite Hil1.
  - rewrite dict_get_set_eq, dict_get_set_ne by done. simpl.
    apply andb_true_iff in Htyped as [-> _]. by rewrite Hil1.
Qed.

Lemma items_of_set_other k v d kind :
  k <> kind -> items_of (VDict (dict_set k v d)) kind = items_of (VDict d) kind.
Proof. intros Hne. unfold items_of. simpl. by rewrite dict_get_set_ne. Qed.

(** Recomputing a typed stage makes it consistent. *)
Lemma recompute_stage_consistent st :
  typed_stage st = true ->
  exists st2, recompute_stage st = Ok st2 /\ stage_consistent st2 = true.
Proof.
  intros Htyped. destruct (recompute_stage_typed st Htyped) as (d & -> & ->).
  eexists. split; [done|].
  unfold stage_consistent, completed_in, total_in.
  rewrite !(items_of_set_other "completed"), !(items_of_set_other "progress")
    by done.
  unfold stage_progress. simpl py_getitem.
  rewrite dict_get_set_ne, dict_get_set_eq by done.
  apply bool_decide_eq_true.
  rewrite (Nat.add_comm (length (List.filter _ (items_of _ "resources")))).
  rewrite (Nat.add_comm (length (items_of _ "resources"))).
  case_bool_decide as Hz; [|done]. by rewrite Hz, percentage_zero.
Qed.

Lemma update_at_stage_observed data sid f st st' sl :
  py_getitem data "stages" = Ok (VDict sl) -> dict_get sid sl = Some st ->
  f st = Ok st' ->
  exists data',
    update_at ["stages"; sid] f data = Ok data' /\
    py_getitem data' "stages" = Ok (VDict (dict_set sid st' sl)) /\
    (forall k, k <> "stages" -> py_getitem data' k = py_getitem data k).
Proof.
  intros (dd & -> & Hs)%py_getitem_Ok Hst Hf.
  eexists. split; [|split].
  - simpl. rewrite Hs. simpl. rewrite Hst. simpl. by rewrite Hf.
  - simpl. by rewrite dict_get_set_eq.
  - intros k Hk. simpl. by rewrite dict_get_set_ne.
Qed.

Lemma consistent_progress_values l :
  forallb stage_consistent l = true ->
  Forall2 (fun st p => py_getitem st "progress" = Ok (VNum p))
          l (omap stage_progress l).
Proof.
  induction l as [|st l IH]; simpl; [constructor|].
  intros [Hst Hl]%andb_true_iff.
  unfold stage_consistent in Hst. unfold stage_progress at 1.
  destruct (stage_progress st) as [q|] eqn:Hq; [|done].
  unfold stage_progress in Hq.
  destruct (py_getitem st "progress") as [[| |q'| | |]|] eqn:Hp; try done.
  injection Hq as ->. constructor; [done | auto].
Qed.

Lemma update_total_progress_consistent w sl md :
  py_getitem (self_data w) "stages" = Ok (VDict sl) -> sl <> [] ->
  forallb stage_consistent sl.*2 = true ->
  py_getitem (self_data w) "metadata" = Ok (VDict md) ->
  exists data',
    update_total_progress w = (Ok tt, World data' (disk w)) /\
    aggregates_consistent data' = true.
Proof.
  intros Hs Hne Hall Hm.
  pose proof (mean_progress_typed _ _ (consistent_progress_values _ Hall))
    as Hmean.
  rewrite bool_decide_false in Hmean by done.
  apply py_getitem_Ok in Hm as (dd & Hdata & Hm).
  eexists. split.
  - unfold update_total_progress, sbind, get_data, lift, set_data.
    rewrite Hs. simpl. rewrite Hmean. simpl. rewrite Hdata. simpl.
    by rewrite Hm.
  - rewrite Hdata in Hs. unfold aggregates_consistent. simpl in *.
    rewrite dict_get_set_ne by done.
    destruct (dict_get "stages" dd) as [stages|]; [|done].
    injection Hs as ->. rewrite dict_get_set_eq. simpl.
    rewrite dict_get_set_eq. rewrite Hall. simpl.
    by apply bool_decide_eq_true.
Qed.

Lemma save_data_consistent clk w :
  aggregates_consistent (self_data w) = true ->
  aggregates_consistent (self_data (save_data clk w).2) = true /\
  (disk w !! filename <> Some Locked -> (save_data clk w).1 = Ok tt).
Proof.
  unfold aggregates_consistent. intros H.
  destruct (py_getitem (self_data w) "stages") as [[| | | | |sl]|] eqn:Hs;
    try done.
  apply py_getitem_Ok in Hs as (dd & Hdata & Hs).
  rewrite Hdata in H. simpl in H.
  destruct (dict_get "metadata" dd) as [m|] eqn:Hm; [|done]. simpl in H.
  destruct (py_getitem m "total_progress") as [[| |total| | |]|] eqn:Ht;
    try done.
  apply py_getitem_Ok in Ht as (md & -> & Ht).
  rewrite (save_data_run clk w dd md Hdata Hm).
  split.
  - destruct (disk w !! filename) as [[]|]; simpl;
      rewrite dict_get_set_ne, Hs, dict_get_set_eq by done; simpl;
      by rewrite dict_get_set_ne, Ht.
  - by destruct (disk w !! filename) as [[]|].
Qed.

Lemma sbind_run {A B} (m : M A) (f : A -> M B) w a w' :
  m w = (Ok a, w') -> sbind m f w = f a w'.
Proof. unfold sbind. by intros ->. Qed.

Lemma update_stage_progress_run sid w data' :
  update_at ["stages"; sid] recompute_stage (self_data w) = Ok data' ->
  update_stage_progress sid w = (Ok tt, World data' (disk w)).
Proof.
  intros H. unfold update_stage_progress, sbind, get_data, lift, set_data.
  by rewrite H.
Qed.

(** The common course of [update_task] and [update_resource]. *)
Lemma set_flag_keeps_consistency clk w kind sid id b st item :
  kind = "tasks" \/ kind = "resources" ->
  aggregates_consistent (self_data w) = true ->
  stage_of (self_data w) sid = Ok st -> typed_stage st = true ->
  (items <- py_getitem st kind ;; py_getitem items id) = Ok item ->
  let run :=
    (data <~ get_data ;;
     data' <~ lift (update_at ["stages"; sid; kind; id]
                      (fun t => py_setitem t "completed" (VBool b)) data) ;;
     set_data data' ;;;
     update_stage_progress sid ;;;
     update_total_progress ;;;
     save_data clk) in
  aggregates_consistent (self_data (run w).2) = true /\
  (disk w !! filename <> Some Locked -> (run w).1 = Ok tt).
Proof.
  intros Hkind Hcons Hst Htyped Hitem run.
  (* the record as the invariant describes it *)
  pose proof Hcons as Hc. unfold aggregates_consistent in Hc.
  destruct (py_getitem (self_data w) "stages") as [[| | | | |sl]|] eqn:Hs;
    try done.
  destruct (metadata <- py_getitem (self_data w) "metadata" ;;
            py_getitem metadata "total_progress") as [[| |total| | |]|] eqn:Ht;
    try done.
  apply andb_true_iff in Hc as [Hall _].
  bind_inv Ht as metadata Hm. apply py_getitem_Ok in Ht as (md & -> & _).
  unfold stage_of in Hst. rewrite Hs in Hst. simpl in Hst.
  destruct (dict_get sid sl) as [st0|] eqn:Hsid; [|done]. injection Hst as ->.
  (* the flag is set *)
  destruct (set_flag_typed st kind id item b Hkind Htyped Hitem)
    as (st1 & Hflag & Htyped1).
  destruct (update_at_stage_observed _ sid _ _ _ _ Hs Hsid Hflag)
    as (data1 & Hrun1 & Hs1 & Hother1).
  (* the stage is recomputed *)
  destruct (recompute_stage_consistent st1 Htyped1) as (st2 & Hre & Hcons2).
  destruct (update_at_stage_observed data1 sid _ _ _ _ Hs1
              (dict_get_set_eq _ _ _) Hre)
    as (data2 & Hrun2 & Hs2 & Hother2).
  rewrite dict_set_set in Hs2.
  (* the total is recomputed *)
  destruct (update_total_progress_consistent (World data2 (disk w))
              (dict_set sid st2 sl) md) as (data3 & Hrun3 & Hcons3).
  { exact Hs2. }
  { apply dict_set_nonempty. }
  { by apply forallb_dict_set. }
  { simpl. by rewrite Hother2, Hother1. }
  (* the record is saved *)
  destruct (save_data_consistent clk (World data3 (disk w)) Hcons3)
    as [Hmem Hok].
  assert (run w = save_data clk (World data3 (disk w))) as ->.
  { unfold run.
    rewrite (sbind_run get_data _ w (self_data w) w) by done. cbv beta.
    rewrite (sbind_run _ _ w data1 w).
    2:{ unfold lift.
        change ["stages"; sid; kind; id]
          with (["stages"; sid] ++ [kind; id])%list.
        by rewrite update_at_nested, Hrun1. }
    cbv beta.
    rewrite (sbind_run (set_data data1) _ w tt (World data1 (disk w))) by done.
    cbv beta.
    rewrite (sbind_run _ _ _ tt (World data2 (disk w)))
      by (by apply (update_stage_progress_run sid (World data1 (disk w)))).
    cbv beta.
    by rewrite (sbind_run _ _ _ _ _ Hrun3). }
  split; [exact Hmem | exact Hok].
Qed.

(** On a record with consistent aggregates, [update_task] on a task of a
    typed stage leaves consistent aggregates in memory, and returns when
    the backing file can be written. *)
Lemma update_task_keeps_consistency clk w sid id b st item :
  aggregates_consistent (self_data w) = true ->
  stage_of (self_data w) sid = Ok st -> typed_stage st = true ->
  (items <- py_getitem st "tasks" ;; py_getitem items id) = Ok item ->
  aggregates_consistent (self_data (update_task clk sid id b w).2) = true /\
  (disk w !! filename <> Some Locked -> (update_task clk sid id b w).1 = Ok tt).
Proof. apply set_flag_keeps_consistency. by left. Qed.

Lemma update_resource_keeps_consistency clk w sid id b st item :
  aggregates_consistent (self_data w) = true ->
  stage_of (self_data w) sid = Ok st -> typed_stage st = true ->
  (items <- py_getitem st "resources" ;; py_getitem items id) = Ok item ->
  aggregates_consistent (self_data (update_resource clk sid id b w).2) = true /\
  (disk w !! filename <> Some Locked ->
   (update_resource clk sid id b w).1 = Ok tt).
Proof. apply set_flag_keeps_consistency. by right. Qed.

(** A reset leaves consistent aggregates in memory. *)
Lemma reset_progress_consistent clk clk' w :
  aggregates_consistent (self_data (reset_progress clk clk' w).2) = true.
Proof.
  unfold reset_progress.
  rewrite (sbind_run _ _ w tt (World (get_default_data clk) (disk w))) by done.
  by apply save_data_consistent.
Qed.

(** C1: the mutators and the reset keep the aggregates consistent (the
    lemmas above); the import does not. A record whose aggregates are
    consistent, stored when the first stage had four tasks, is imported;
    the migration adds the fifth task and nothing recomputes: the first
    stage keeps progress 100 with 8 of 9 entries completed. *)
Theorem import_progress_stale_aggregates :
  aggregates_consistent outdated_record = true /\
  exists w' st,
    import_progress clock1 "old.json" import_world = (Ok true, w') /\
    aggregates_consistent (self_data w') = false /\
    stage_of (self_data w') "stage1" = Ok st /\
    py_getitem st "progress" = Ok (num 100) /\
    completed_in st "resources" = 4%nat /\ total_in st "resources" = 4%nat /\
    completed_in st "tasks" = 4%nat /\ total_in st "tasks" = 5%nat.
Proof.
  split; [vm_compute; reflexivity|].
  eexists _, _. split; [vm_compute; reflexivity|].
  repeat split; vm_compute; reflexivity.
Qed.

(** ** The two numbers of the specification in binary64 *)

Example float_progress_3_of_5 : float_stage_progress 3 5 = 60%float.
Proof. vm_compute. reflexivity. Qed.

Example float_mean_0_50_100 : float_mean [0; 50; 100]%float 3 = 50%float.
Proof. vm_compute. reflexivity. Qed.

(** In binary64 the program's [c / n * 100] and [100 * c / n] may differ
    in the last place. *)
Remark float_progress_rounding :
  PrimFloat.eqb (float_stage_progress 1 3) (100 * 1 / 3)%float = false.
Proof. vm_compute. reflexivity. Qed.



(** * Further properties of the code *)

(** ** Migration: what it leaves alone, what it adds, when it returns *)

Lemma default_stage_absent clk sid e :
  stage_of (get_default_data clk) sid = Raise e -> sid ∉ default_stages.*1.
Proof.
  change (stage_of (get_default_data clk) sid)
    with (py_getitem (VDict default_stages) sid).
  intros H [dst Hdst]%dict_get_keys_Some.
  assert (py_getitem (VDict default_stages) sid = Ok dst) as Hok
    by (apply py_getitem_Ok; eauto).
  congruence.
Qed.

(** X1: the migration changes nothing beside the default stages: every
    top-level key other than ["stages"], the metadata among them, and every
    stage whose id the curriculum does not have stay as they are. *)
Theorem fix_missing_data_frame clk x y :
  fix_missing_data clk x = Ok y ->
  (forall k, k <> "stages" -> py_getitem y k = py_getitem x k) /\
  (forall sid e, stage_of (get_default_data clk) sid = Raise e ->
                 stage_of y sid = stage_of x sid).
Proof.
  rewrite fix_missing_data_loop. intros H. split.
  - intros k Hk. by eapply migrate_toplevel.
  - intros sid e Hsid%default_stage_absent. by eapply migrate_stage_untouched.
Qed.

Lemma fix_missing_data_frame_witness :
  exists y, fix_missing_data clock1 extended_record = Ok y /\
    py_getitem y "metadata" = py_getitem extended_record "metadata" /\
    stage_of y "bonus" = stage_of extended_record "bonus".
Proof.
  eexists. split; [vm_compute; reflexivity|].
  destruct (fix_missing_data_frame clock1 extended_record _ eq_refl)
    as [Htop Hstage].
  split.
  - apply Htop. discriminate.
  - eapply Hstage. reflexivity.
Defined.

(** X2: a default stage that the record does not have is inserted as the
    default has it. *)
Theorem fix_missing_data_adds_stage clk x y sid dst :
  fix_missing_data clk x = Ok y ->
  stage_of (get_default_data clk) sid = Ok dst ->
  stage_of x sid = Raise (KeyError sid) ->
  stage_of y sid = Ok dst.
Proof.
  rewrite fix_missing_data_loop. intros H Hdst%default_stage_lookup Hx.
  destruct (migrate_stage_absent _ default_stages_ok _ _ _ _ H
              (dict_get_Some_keys _ _ _ Hdst) Hx) as (dst' & Hdst' & Hy).
  congruence.
Qed.

Lemma fix_missing_data_adds_stage_witness :
  exists y dst,
    fix_missing_data clock1 early_record = Ok y /\
    stage_of (get_default_data clock1) "stage3" = Ok dst /\
    stage_of y "stage3" = Ok dst.
Proof.
  eexists _, _. split; [vm_compute; reflexivity|]. split; [reflexivity|].
  apply (fix_missing_data_adds_stage clock1 early_record); reflexivity.
Defined.

Lemma merge_tasks_contains dt cur cur' ks :
  merge_tasks dt cur = Ok cur' -> py_keys dt = Ok ks ->
  forall t, t ∈ ks -> py_contains t cur' = Ok true.
Proof.
  unfold merge_tasks. intros H Hks. rewrite Hks in H. simpl in H.
  eapply (foldM_establish _ (fun t c => py_contains t c = Ok true)); [| |exact H].
  - apply merge_task_contains.
  - intros ????. apply merge_task_mono.
Qed.

(** A stage the migration leaves as it is holds all the migration adds. *)
Lemma fixed_stage_complete dst st :
  template_stage_ok dst = true -> stage_shape_ok st = true ->
  fix_present_stage dst st = Ok st -> stage_complete dst st = true.
Proof.
  intros Hdst (d & c & -> & Hc)%stage_shape_ok_inv Hfix.
  pose proof (fix_present_stage_has_resources _ _ _ Hfix) as Hres.
  destruct (fix_present_stage_tasks _ _ _ (VDict c) Hfix)
    as (dtasks & cur' & Hdt & Hm & Hcur'); [by simpl; rewrite Hc|].
  simpl in Hcur'. rewrite Hc in Hcur'. injection Hcur' as <-.
  unfold template_stage_ok in Hdst.
  destruct (py_getitem dst "resources"); [|done].
  rewrite Hdt in Hdst. destruct dtasks as [| | | | |dl]; try done.
  unfold stage_complete. rewrite Hres, Hdt. simpl py_getitem. rewrite Hc.
  apply forallb_forall. intros t Ht%list_elem_of_In.
  pose proof (merge_tasks_contains _ _ _ _ Hm eq_refl t Ht) as Hin.
  by injection Hin.
Qed.

Lemma dict_get_elem_NoDup {A} k (v : A) d :
  NoDup d.*1 -> (k, v) ∈ d -> dict_get k d = Some v.
Proof.
  induction d as [|[k' v'] d IH]; simpl.
  - by intros _ ?%elem_of_nil.
  - intros Hnd [[= -> ->]|Hin]%elem_of_cons.
    all: pose proof (NoDup_cons_1_1 _ _ Hnd) as Hk';
      pose proof (NoDup_cons_1_2 _ _ Hnd) as Hd.
    + by rewrite decide_True.
    + rewrite decide_False; [auto|]. intros ->. apply Hk'.
      apply list_elem_of_fmap. by exists (k', v).
Qed.

Section MigrationShape.
Variable D : dict.
Hypothesis D_ok :
  forall sid dst, dict_get sid D = Some dst -> template_stage_ok dst = true.

Lemma migrate_shape K ks data data' :
  ks ⊆ D.*1 -> ks ⊆ K -> well_shaped_for K data = true ->
  foldM (fix_stage (VDict D)) data ks = Ok data' ->
  well_shaped_for K data' = true.
Proof.
  revert data. induction ks as [|k ks IH]; simpl; intros data HD HK Hdata H.
  - by injection H as <-.
  - bind_inv H as d1 H1.
    destruct (fix_stage_total D D_ok K data k) as (d1' & H1' & Hd1);
      [set_solver..|done|].
    assert (d1' = d1) as -> by congruence.
    apply (IH d1); [set_solver..|done|done].
Qed.

Lemma migrate_complete data :
  NoDup D.*1 -> well_shaped_for D.*1 data = true ->
  foldM (fix_stage (VDict D)) data D.*1 = Ok data ->
  match py_getitem data "stages" with
  | Ok (VDict sl) =>
      forallb (fun '(stage_id, default_stage) =>
                 match dict_get stage_id sl with
                 | Some st => stage_complete default_stage st
                 | None => false
                 end) D
  | _ => false
  end = true.
Proof.
  intros Hnodup Hshape Hfixed. pose proof Hshape as Hs.
  unfold well_shaped_for in Hs.
  destruct (py_getitem data "stages") as [[| | | | |sl]|] eqn:Hstages;
    try done.
  rewrite forallb_forall in Hs.
  apply forallb_forall. intros [sid dst] Hin%list_elem_of_In.
  pose proof (dict_get_elem_NoDup _ _ _ Hnodup Hin) as Hdst.
  pose proof (dict_get_Some_keys _ _ _ Hdst) as Hsid.
  pose proof (migrate_fixed D D_ok _ _ _ Hfixed sid Hsid) as Hfix.
  apply fix_stage_fixed_iff in Hfix
    as (dd & sl' & st & dst' & -> & Hsl & Hst & Hdst' & Hfix).
  simpl in Hstages, Hdst'. rewrite Hsl in Hstages. injection Hstages as ->.
  rewrite Hdst in Hdst'. injection Hdst' as <-. rewrite Hst.
  apply fixed_stage_complete; [by eapply D_ok| |done].
  specialize (Hs sid). rewrite <-list_elem_of_In in Hs.
  specialize (Hs Hsid). by rewrite Hst in Hs.
Qed.
End MigrationShape.

Lemma default_stages_NoDup : NoDup default_stages.*1.
Proof. apply (bool_decide_unpack _). vm_compute. exact I. Qed.

(** X3: on a record of the expected shape the migration returns a record
    that holds the whole curriculum: every default stage, each with a
    ["resources"] key and with every default task. *)
Theorem fix_missing_data_complete clk x :
  well_shaped x = true ->
  exists y, fix_missing_data clk x = Ok y /\ complete_record y = true.
Proof.
  intros Hx. destruct (fix_missing_data_total clk x Hx) as [y Hy].
  exists y. split; [done|]. rewrite fix_missing_data_loop in Hy.
  apply (migrate_complete default_stages default_stages_ok).
  - apply default_stages_NoDup.
  - by eapply (migrate_shape default_stages default_stages_ok).
  - by eapply migrate_idem; [apply default_stages_ok|].
Qed.

Lemma fix_missing_data_complete_witness :
  exists y, fix_missing_data clock1 early_record = Ok y /\
            complete_record y = true.
Proof. apply (fix_missing_data_complete clock1 early_record). reflexivity. Defined.

(** X4: the migration returns only if ["stages"] is a dictionary and every
    default stage the record holds is a dictionary with a ["tasks"] key:
    unlike the resources, the tasks of a stage are not defaulted. *)
Theorem fix_missing_data_needs_tasks clk x y :
  fix_missing_data clk x = Ok y ->
  (exists sl, py_getitem x "stages" = Ok (VDict sl)) /\
  (forall sid dst st,
     stage_of (get_default_data clk) sid = Ok dst ->
     stage_of x sid = Ok st ->
     exists d tasks, st = VDict d /\ dict_get "tasks" d = Some tasks).
Proof.
  rewrite fix_missing_data_loop. intros H. split.
  - assert (default_stages.*1 = "stage1" :: tail default_stages.*1) as Hks
      by reflexivity.
    rewrite Hks in H. cbn [foldM] in H. bind_inv H as d1 H1.
    apply fix_stage_inv in H1 as (dd & sl & _ & _ & -> & Hs & _).
    exists sl. simpl. by rewrite Hs.
  - intros sid dst st Hdst%default_stage_lookup Hst.
    destruct (migrate_stage_present _ _ _ _ _ _ H
                (dict_get_Some_keys _ _ _ Hdst) Hst)
      as (dst' & st' & _ & Hfix & _).
    apply fix_present_stage_inv in Hfix
      as (d & d1 & cur & _ & _ & -> & Hd1 & Hcur & _).
    exists d. destruct (dict_has "resources" d).
    + subst. eauto.
    + destruct Hd1 as (r & _ & ->). rewrite dict_get_set_ne in Hcur by done.
      eauto.
Qed.

Lemma fix_missing_data_needs_tasks_witness :
  exists d tasks,
    stage_of early_record "stage1" = Ok (VDict d) /\
    dict_get "tasks" d = Some tasks.
Proof.
  destruct (fix_missing_data_needs_tasks clock1 early_record _ eq_refl)
    as [_ H].
  destruct (H "stage1" _ _ eq_refl eq_refl) as (d & tasks & Hst & Htasks).
  exists d, tasks. split; [|exact Htasks]. simpl. by rewrite <-Hst.
Defined.

(** ** The mutators as a change of the record followed by a write *)

Lemma save_data_cases clk w :
  save_data clk w
  = match with_stamp clk (self_data w) with
    | Raise e => (Raise e, w)
    | Ok d' =>
        match disk w !! filename with
        | Some Locked => (Raise PermissionError, World d' (disk w))
        | _ => (Ok tt, World d' (<[filename := Text (Some d')]> (disk w)))
        end
    end.
Proof.
  unfold save_data, with_stamp, sbind, get_data, lift, set_data, write_json.
  destruct (update_at _ _ (self_data w)); simpl; [|done].
  by destruct (disk w !! filename) as [[]|].
Qed.

Lemma update_stage_progress_cases sid w :
  update_stage_progress sid w
  = match with_stage_progress sid (self_data w) with
    | Raise e => (Raise e, w)
    | Ok d' => (Ok tt, World d' (disk w))
    end.
Proof.
  unfold update_stage_progress, with_stage_progress, sbind, get_data, lift,
    set_data.
  by destruct (update_at _ _ (self_data w)).
Qed.

Lemma update_total_progress_cases w :
  update_total_progress w
  = match with_total_progress (self_data w) with
    | Raise e => (Raise e, w)
    | Ok d' => (Ok tt, World d' (disk w))
    end.
Proof.
  unfold update_total_progress, with_total_progress, sbind, get_data, lift,
    set_data.
  by destruct (rbind _ _).
Qed.

(** The course of [update_task] ([kind] is ["tasks"]) and of
    [update_resource] ([kind] is ["resources"]). *)
Lemma toggle_cases clk kind sid id b w :
  (data <~ get_data ;;
   data' <~ lift (update_at ["stages"; sid; kind; id]
                    (fun t => py_setitem t "completed" (VBool b)) data) ;;
   set_data data' ;;;
   update_stage_progress sid ;;;
   update_total_progress ;;;
   save_data clk) w
  = match with_flag kind sid id b (self_data w) with
    | Raise e => (Raise e, w)
    | Ok d1 =>
        match with_stage_progress sid d1 with
        | Raise e => (Raise e, World d1 (disk w))
        | Ok d2 =>
            match with_total_progress d2 with
            | Raise e => (Raise e, World d2 (disk w))
            | Ok d3 => save_data clk (World d3 (disk w))
            end
        end
    end.
Proof.
  unfold sbind at 1 2 3, get_data, lift, set_data, with_flag.
  destruct (update_at _ _ (self_data w)) as [d1|]; [|done].
  unfold sbind at 1. rewrite update_stage_progress_cases. simpl.
  destruct (with_stage_progress sid d1) as [d2|]; [|done].
  unfold sbind. rewrite update_total_progress_cases. simpl.
  by destruct (with_total_progress d2).
Qed.

(** Either the record cannot be computed and nothing is written, or it is
    computed, kept in memory and written if the file can be. *)
Lemma toggle_outcome clk kind sid id b w :
  (data <~ get_data ;;
   data' <~ lift (update_at ["stages"; sid; kind; id]
                    (fun t => py_setitem t "completed" (VBool b)) data) ;;
   set_data data' ;;;
   update_stage_progress sid ;;;
   update_total_progress ;;;
   save_data clk) w
  = match toggled clk kind sid id b (self_data w) with
    | Ok d' =>
        match disk w !! filename with
        | Some Locked => (Raise PermissionError, World d' (disk w))
        | _ => (Ok tt, World d' (<[filename := Text (Some d')]> (disk w)))
        end
    | Raise e =>
        (Raise e,
         World (match with_flag kind sid id b (self_data w) with
                | Ok d1 => match with_stage_progress sid d1 with
                           | Ok d2 => match with_total_progress d2 with
                                      | Ok d3 => d3
                                      | Raise _ => d2
                                      end
                           | Raise _ => d1
                           end
                | Raise _ => self_data w
                end) (disk w))
    end.
Proof.
  rewrite toggle_cases. unfold toggled.
  destruct (with_flag kind sid id b (self_data w)) as [d1|]; simpl;
    [|by destruct w].
  destruct (with_stage_progress sid d1) as [d2|]; simpl; [|done].
  destruct (with_total_progress d2) as [d3|]; simpl; [|done].
  rewrite save_data_cases. simpl. by destruct (with_stamp clk d3).
Qed.

Lemma update_task_outcome clk sid id b w :
  update_task clk sid id b w
  = match toggled clk "tasks" sid id b (self_data w) with
    | Ok d' =>
        match disk w !! filename with
        | Some Locked => (Raise PermissionError, World d' (disk w))
        | _ => (Ok tt, World d' (<[filename := Text (Some d')]> (disk w)))
        end
    | Raise e =>
        (Raise e,
         World (match with_flag "tasks" sid id b (self_data w) with
                | Ok d1 => match with_stage_progress sid d1 with
                           | Ok d2 => match with_total_progress d2 with
                                      | Ok d3 => d3
                                      | Raise _ => d2
                                      end
                           | Raise _ => d1
                           end
                | Raise _ => self_data w
                end) (disk w))
    end.
Proof. apply toggle_outcome. Qed.

Lemma update_resource_outcome clk sid id b w :
  update_resource clk sid id b w
  = match toggled clk "resources" sid id b (self_data w) with
    | Ok d' =>
        match disk w !! filename with
        | Some Locked => (Raise PermissionError, World d' (disk w))
        | _ => (Ok tt, World d' (<[filename := Text (Some d')]> (disk w)))
        end
    | Raise e =>
        (Raise e,
         World (match with_flag "resources" sid id b (self_data w) with
                | Ok d1 => match with_stage_progress sid d1 with
                           | Ok d2 => match with_total_progress d2 with
                                      | Ok d3 => d3
                                      | Raise _ => d2
                                      end
                           | Raise _ => d1
                           end
                | Raise _ => self_data w
                end) (disk w))
    end.
Proof. apply toggle_outcome. Qed.

(** X5: whenever [save_data], [update_task], [update_resource] or the
    reset returns, the backing file holds exactly the record in memory and
    no other file has changed. *)
Theorem saved_record_is_memory clk clk' sid id b w w' :
  save_data clk w = (Ok tt, w') \/
  update_task clk sid id b w = (Ok tt, w') \/
  update_resource clk sid id b w = (Ok tt, w') \/
  reset_progress clk clk' w = (Ok tt, w') ->
  disk w' = <[filename := Text (Some (self_data w'))]> (disk w).
Proof.
  assert (forall clk w w', save_data clk w = (Ok tt, w') ->
            disk w' = <[filename := Text (Some (self_data w'))]> (disk w))
    as Hsave.
  { clear. intros clk w w'. rewrite save_data_cases.
    destruct (with_stamp clk (self_data w)); [|done].
    by destruct (disk w !! filename) as [[]|]; intros [= <-]. }
  intros [H|[H|[H|H]]].
  - by eapply Hsave.
  - rewrite update_task_outcome in H.
    destruct (toggled _ _ _ _ _ _); [|done].
    by destruct (disk w !! filename) as [[]|]; simplify_eq.
  - rewrite update_resource_outcome in H.
    destruct (toggled _ _ _ _ _ _); [|done].
    by destruct (disk w !! filename) as [[]|]; simplify_eq.
  - unfold reset_progress, sbind, set_data in H.
    by apply Hsave in H.
Qed.

Lemma saved_record_is_memory_witness :
  exists w',
    update_task clock1 "stage1" "task1" true
      (World (get_default_data clock0) ∅) = (Ok tt, w') /\
    disk w' = {[ filename := Text (Some (self_data w')) ]}.
Proof.
  eexists. split; [vm_compute; reflexivity|].
  apply (saved_record_is_memory clock1 clock1 "stage1" "task1" true
           (World (get_default_data clock0) ∅)).
  right. left. vm_compute. reflexivity.
Defined.

(** X6: when [update_task] or [update_resource] cannot compute the new
    record (the flag, the progress of the stage, the total or the time
    stamp cannot be set) it raises that error before the backing file is
    opened, and the disk is as it was; with a backing file that cannot be
    opened for writing the call raises [PermissionError] after making, in
    memory, the change it would have made otherwise: memory and file then
    differ. *)
Theorem update_failure_keeps_disk clk sid id b w :
  (forall e, toggled clk "tasks" sid id b (self_data w) = Raise e ->
             exists d, update_task clk sid id b w = (Raise e, World d (disk w))) /\
  (forall e, toggled clk "resources" sid id b (self_data w) = Raise e ->
             exists d,
               update_resource clk sid id b w = (Raise e, World d (disk w))) /\
  (disk w !! filename = Some Locked ->
   forall dk w1,
     (update_task clk sid id b (World (self_data w) dk) = (Ok tt, w1) ->
      update_task clk sid id b w
      = (Raise PermissionError, World (self_data w1) (disk w))) /\
     (update_resource clk sid id b (World (self_data w) dk) = (Ok tt, w1) ->
      update_resource clk sid id b w
      = (Raise PermissionError, World (self_data w1) (disk w)))).
Proof.
  split; [|split].
  - intros e H. rewrite update_task_outcome, H. eauto.
  - intros e H. rewrite update_resource_outcome, H. eauto.
  - intros Hlocked dk w1.
    rewrite !update_task_outcome, !update_resource_outcome. simpl.
    rewrite Hlocked. split; intros H.
    + destruct (toggled _ _ _ _ _ _); [|done].
      by destruct (dk !! filename) as [[]|]; simplify_eq.
    + destruct (toggled _ _ _ _ _ _); [|done].
      by destruct (dk !! filename) as [[]|]; simplify_eq.
Qed.

Lemma update_failure_keeps_disk_witness :
  let w := World (get_default_data clock0) {[ filename := Locked ]} in
  exists d',
    update_task clock1 "stage1" "task1" true w
    = (Raise PermissionError, World d' (disk w)) /\
    item_of d' "stage1" "tasks" "task1"
    = Ok (done_task "Зарегистрироваться на Coding Game").
Proof.
  intros w. eexists. split.
  - eapply (proj2 (proj2 (update_failure_keeps_disk clock1 "stage1" "task1"
                             true w))
              eq_refl ∅).
    vm_compute. reflexivity.
  - vm_compute. reflexivity.
Defined.

(** ** What the mutators change and what they keep *)

Lemma update_at_cons_inv k p f v v' :
  update_at (k :: p) f v = Ok v' ->
  exists d c c',
    v = VDict d /\ dict_get k d = Some c /\
    update_at p f c = Ok c' /\ v' = VDict (dict_set k c' d).
Proof.
  simpl. intros H. bind_inv H as c Hc. bind_inv H as c' Hc'.
  apply py_getitem_Ok in Hc as (d & -> & Hc).
  apply py_setitem_Ok in H as (? & [= <-] & ->). eauto 10.
Qed.

Lemma recompute_stage_inv st st' :
  recompute_stage st = Ok st' ->
  exists d p c,
    st = VDict d /\
    st' = VDict (dict_set "completed" (VBool c) (dict_set "progress" (VNum p) d)).
Proof.
  unfold recompute_stage. intros H.
  bind_inv H as tasks Ht. bind_inv H as resources Hr.
  bind_inv H as tv Htv. bind_inv H as ct Hct. bind_inv H as rv Hrv.
  bind_inv H as cr Hcr. bind_inv H as lt Hlt. bind_inv H as lr Hlr.
  bind_inv H as st1 Hst1.
  apply py_setitem_Ok in Hst1 as (d & -> & ->).
  apply py_setitem_Ok in H as (? & [= <-] & ->). eauto.
Qed.

Lemma with_total_progress_inv d d' :
  with_total_progress d = Ok d' ->
  exists dd md t,
    d = VDict dd /\ dict_get "metadata" dd = Some (VDict md) /\
    d' = VDict (dict_set "metadata"
                  (VDict (dict_set "total_progress" (VNum t) md)) dd).
Proof.
  unfold with_total_progress. intros H.
  bind_inv H as stages Hs. bind_inv H as t Ht.
  apply update_at_cons_inv in H as (dd & m & m' & -> & Hm & Hset & ->).
  simpl in Hset. apply py_setitem_Ok in Hset as (md & -> & ->). eauto 10.
Qed.

Lemma with_stamp_inv clk d d' :
  with_stamp clk d = Ok d' ->
  exists dd md,
    d = VDict dd /\ dict_get "metadata" dd = Some (VDict md) /\
    d' = VDict (dict_set "metadata"
                  (VDict (dict_set "last_update" (VStr (stamp clk)) md)) dd).
Proof.
  unfold with_stamp. intros H.
  apply update_at_cons_inv in H as (dd & m & m' & -> & Hm & Hset & ->).
  simpl in Hset. apply py_setitem_Ok in Hset as (md & -> & ->). eauto 10.
Qed.

Lemma with_stage_progress_inv sid d d' :
  with_stage_progress sid d = Ok d' ->
  exists dd sl sd p c,
    d = VDict dd /\ dict_get "stages" dd = Some (VDict sl) /\
    dict_get sid sl = Some (VDict sd) /\
    d' = VDict (dict_set "stages"
                  (VDict (dict_set sid
                            (VDict (dict_set "completed" (VBool c)
                                      (dict_set "progress" (VNum p) sd)))
                            sl)) dd).
Proof.
  unfold with_stage_progress. intros H.
  apply update_at_cons_inv in H as (dd & s & s' & -> & Hs & H & ->).
  apply update_at_cons_inv in H as (sl & st & st' & -> & Hst & H & ->).
  simpl in H. apply recompute_stage_inv in H as (sd & p & c & -> & ->).
  eauto 10.
Qed.

Lemma with_flag_inv kind sid id b d d' :
  with_flag kind sid id b d = Ok d' ->
  exists dd sl sd il it,
    d = VDict dd /\ dict_get "stages" dd = Some (VDict sl) /\
    dict_get sid sl = Some (VDict sd) /\
    dict_get kind sd = Some (VDict il) /\
    dict_get id il = Some (VDict it) /\
    d' = VDict (dict_set "stages"
                  (VDict (dict_set sid
                            (VDict (dict_set kind
                                      (VDict (dict_set id
                                                (VDict (dict_set "completed"
                                                          (VBool b) it))
                                                il))
                                      sd))
                            sl)) dd).
Proof.
  unfold with_flag. intros H.
  apply update_at_cons_inv in H as (dd & s & s' & -> & Hs & H & ->).
  apply update_at_cons_inv in H as (sl & st & st' & -> & Hst & H & ->).
  apply update_at_cons_inv in H as (sd & i & i' & -> & Hi & H & ->).
  apply update_at_cons_inv in H as (il & t & t' & -> & Ht & H & ->).
  simpl in H. apply py_setitem_Ok in H as (it & -> & ->).
  eauto 12.
Qed.

(** Rewrites lookups through updates of a dictionary. *)
Ltac dict_lookup :=
  repeat first
    [ rewrite dict_get_set_eq
    | rewrite dict_get_set_ne by (done || congruence)
    | progress simpl rbind
    | progress simpl py_getitem ].

Lemma toggled_effect clk kind sid id b d d' :
  kind <> "progress" -> kind <> "completed" ->
  toggled clk kind sid id b d = Ok d' -> flag_effect kind sid id b d d'.
Proof.
  intros Hk1 Hk2 H. unfold toggled in H.
  bind_inv H as d1 H1. bind_inv H as d2 H2. bind_inv H as d3 H3.
  apply with_flag_inv in H1
    as (dd & sl & sd & il & it & -> & Hs & Hst & Hil & Hit & ->).
  apply with_stage_progress_inv in H2
    as (? & sl1 & sd1 & p & c & [= <-] & Hs1 & Hst1 & ->).
  rewrite dict_get_set_eq in Hs1. injection Hs1 as <-.
  rewrite dict_get_set_eq in Hst1. injection Hst1 as <-.
  apply with_total_progress_inv in H3 as (? & md & t & [= <-] & Hmd & ->).
  apply with_stamp_inv in H as (? & md1 & [= <-] & Hmd1 & ->).
  rewrite dict_get_set_eq in Hmd1. injection Hmd1 as <-.
  rewrite !dict_get_set_ne in Hmd by done.
  unfold flag_effect, item_of, stage_of. simpl py_getitem.
  rewrite Hs. simpl rbind. simpl py_getitem. rewrite Hst. simpl rbind.
  repeat split.
  - exists (VDict it). dict_lookup. rewrite Hil. dict_lookup. by rewrite Hit.
  - intros id' Hid. dict_lookup. rewrite Hil. by dict_lookup.
  - intros k Hk Hp Hc. by dict_lookup.
  - intros sid' Hsid. by dict_lookup.
  - intros k Hk Hm. by dict_lookup.
  - intros k Hk Hl. dict_lookup. rewrite Hmd. by dict_lookup.
Qed.

(** X7: a call of [update_task] or [update_resource] that returns has set
    the flag of the entry named, to the value given; every other entry of
    the stage, every other stage, every other key of the record and of the
    metadata is as before; only the stage's [progress] and [completed],
    [total_progress] and [last_update] may have changed. *)
Theorem update_sets_one_flag clk sid id b w w' :
  (update_task clk sid id b w = (Ok tt, w') ->
   flag_effect "tasks" sid id b (self_data w) (self_data w')) /\
  (update_resource clk sid id b w = (Ok tt, w') ->
   flag_effect "resources" sid id b (self_data w) (self_data w')).
Proof.
  rewrite update_task_outcome, update_resource_outcome. split; intros H.
  - destruct (toggled _ _ _ _ _ _) as [d'|] eqn:Ht; [|done].
    apply toggled_effect in Ht; [|done..].
    by destruct (disk w !! filename) as [[]|]; simplify_eq.
  - destruct (toggled _ _ _ _ _ _) as [d'|] eqn:Ht; [|done].
    apply toggled_effect in Ht; [|done..].
    by destruct (disk w !! filename) as [[]|]; simplify_eq.
Qed.

Lemma update_sets_one_flag_witness :
  exists w',
    update_resource clock1 "stage2" "resource3" true
      (World (get_default_data clock0) ∅) = (Ok tt, w') /\
    item_of (self_data w') "stage2" "resources" "resource3"
    = Ok (done_resource "Pro Git (книга)" "https://git-scm.com/book/ru/v2") /\
    stage_of (self_data w') "stage1"
    = stage_of (get_default_data clock0) "stage1".
Proof.
  assert (exists w', update_resource clock1 "stage2" "resource3" true
                       (World (get_default_data clock0) ∅) = (Ok tt, w'))
    as [w' Hrun] by (eexists; vm_compute; reflexivity).
  exists w'. split; [exact Hrun|].
  destruct (proj2 (update_sets_one_flag clock1 "stage2" "resource3" true
                     (World (get_default_data clock0) ∅) w') Hrun)
    as ((item & Hitem & Hset) & _ & _ & Hstages & _).
  split.
  - rewrite Hset. injection Hitem as <-. reflexivity.
  - apply Hstages. discriminate.
Defined.

(** X8: [update_stage_progress] touches nothing on disk, leaves the world
    as it is when it raises, and when it returns has changed only the
    [progress] and [completed] keys of the stage named. *)
Theorem update_stage_progress_frame sid w r w' :
  update_stage_progress sid w = (r, w') ->
  disk w' = disk w /\
  (forall e, r = Raise e -> w' = w) /\
  (r = Ok tt ->
   (forall k, k <> "progress" -> k <> "completed" ->
              (st <- stage_of (self_data w') sid ;; py_getitem st k)
              = (st <- stage_of (self_data w) sid ;; py_getitem st k)) /\
   (forall sid', sid' <> sid ->
                 stage_of (self_data w') sid' = stage_of (self_data w) sid') /\
   (forall k, k <> "stages" ->
              py_getitem (self_data w') k = py_getitem (self_data w) k)).
Proof.
  rewrite update_stage_progress_cases.
  destruct (with_stage_progress sid (self_data w)) as [d'|e'] eqn:Hd;
    intros [= <- <-]; (split; [done|]); (split; [by intros e [=]|]);
    [|done].
  intros _.
  apply with_stage_progress_inv in Hd
    as (dd & sl & sd & p & c & Hw & Hs & Hst & ->).
  rewrite Hw. unfold stage_of. simpl py_getitem. rewrite Hs. simpl rbind.
  simpl py_getitem. rewrite Hst.
  repeat split.
  - intros k Hp Hc. by dict_lookup.
  - intros sid' Hsid. by dict_lookup.
  - intros k Hk. by dict_lookup.
Qed.

Lemma update_stage_progress_frame_witness :
  exists w',
    update_stage_progress "s" (World sample_stage_record ∅) = (Ok tt, w') /\
    stage_of (self_data w') "empty" = stage_of sample_stage_record "empty" /\
    py_getitem (self_data w') "metadata"
    = py_getitem sample_stage_record "metadata".
Proof.
  assert (exists w', update_stage_progress "s" (World sample_stage_record ∅)
                     = (Ok tt, w'))
    as [w' Hrun] by (eexists; vm_compute; reflexivity).
  exists w'. split; [exact Hrun|].
  destruct (update_stage_progress_frame "s" (World sample_stage_record ∅)
              _ _ Hrun) as (_ & _ & H).
  destruct (H eq_refl) as (_ & Hstages & Htop). split.
  - apply Hstages. discriminate.
  - apply Htop. discriminate.
Defined.

(** X9: [update_total_progress] touches nothing on disk, leaves the world
    as it is when it raises, and when it returns has changed only
    [metadata.total_progress]. *)
Theorem update_total_progress_frame w r w' :
  update_total_progress w = (r, w') ->
  disk w' = disk w /\
  (forall e, r = Raise e -> w' = w) /\
  (r = Ok tt ->
   (forall k, k <> "metadata" ->
              py_getitem (self_data w') k = py_getitem (self_data w) k) /\
   (forall k, k <> "total_progress" ->
              (m <- py_getitem (self_data w') "metadata" ;; py_getitem m k)
              = (m <- py_getitem (self_data w) "metadata" ;; py_getitem m k))).
Proof.
  rewrite update_total_progress_cases.
  destruct (with_total_progress (self_data w)) as [d'|e'] eqn:Hd;
    intros [= <- <-]; (split; [done|]); (split; [by intros e [=]|]);
    [|done].
  intros _.
  apply with_total_progress_inv in Hd as (dd & md & t & Hw & Hm & ->).
  rewrite Hw. split.
  - intros k Hk. by dict_lookup.
  - intros k Hk. dict_lookup. rewrite Hm. by dict_lookup.
Qed.

Lemma update_total_progress_frame_witness :
  exists w',
    update_total_progress (World three_stage_record ∅) = (Ok tt, w') /\
    py_getitem (self_data w') "stages" = py_getitem three_stage_record "stages".
Proof.
  assert (exists w', update_total_progress (World three_stage_record ∅)
                     = (Ok tt, w'))
    as [w' Hrun] by (eexists; vm_compute; reflexivity).
  exists w'. split; [exact Hrun|].
  destruct (update_total_progress_frame (World three_stage_record ∅)
              _ _ Hrun) as (_ & _ & H).
  destruct (H eq_refl) as [Htop _]. apply Htop. discriminate.
Defined.

(** ** Flags that are not booleans *)

Lemma count_completed_keyed_from n items :
  forallb keyed_item items = true ->
  foldM (fun (n : nat) (item : pyval) =>
           c <- py_getitem item "completed" ;;
           Ok (if py_truthy c then S n else n)) n items
  = Ok (n + length (List.filter truthy_flag items))%nat.
Proof.
  revert n. induction items as [|item items IH]; simpl; intros n H.
  - f_equal. lia.
  - apply andb_true_iff in H as [Hitem Hitems].
    unfold keyed_item in Hitem. unfold truthy_flag at 1.
    destruct (py_getitem item "completed") as [c|]; [|done]. simpl.
    rewrite IH by done. destruct (py_truthy c); simpl; f_equal; lia.
Qed.

Lemma recompute_stage_keyed st :
  keyed_stage st = true ->
  let total := (total_in st "tasks" + total_in st "resources")%nat in
  let completed := (truthy_in st "tasks" + truthy_in st "resources")%nat in
  let progress :=
    if bool_decide (total = 0%nat) then 0%Qc else percentage completed total in
  exists d, st = VDict d /\
    recompute_stage st
    = Ok (VDict (dict_set "completed"
                   (VBool (bool_decide (Qc_of_Z 100 ≤ progress)%Qc))
                   (dict_set "progress" (VNum progress) d))).
Proof.
  unfold keyed_stage, total_in, truthy_in, items_of. intros H.
  apply andb_true_iff in H as [Ht Hr].
  destruct (py_getitem st "tasks") as [[| | | | |tasks]|] eqn:Htasks;
    try done.
  apply py_getitem_Ok in Htasks as (d & -> & Htasks). exists d. split; [done|].
  unfold recompute_stage, count_completed. simpl in *. rewrite Htasks. simpl.
  rewrite (count_completed_keyed_from 0 _ Ht). simpl.
  destruct (dict_get "resources" d) as [[| | | | |resources]|] eqn:Hres;
    try done; simpl.
  - rewrite (count_completed_keyed_from 0 _ Hr). simpl.
    by rewrite !length_fmap, progress_formula.
  - rewrite !length_fmap, progress_formula. by rewrite !Nat.add_0_r.
Qed.

(** In exact arithmetic: on a stage whose entries all have a
    ["completed"] key [update_stage_progress] returns, and the progress it
    stores is the percentage of entries whose flag is true in a
    condition. *)
Theorem update_stage_progress_truthy sid w st :
  stage_of (self_data w) sid = Ok st -> keyed_stage st = true ->
  let total := (total_in st "tasks" + total_in st "resources")%nat in
  let completed := (truthy_in st "tasks" + truthy_in st "resources")%nat in
  let progress :=
    if bool_decide (total = 0%nat) then 0%Qc else percentage completed total in
  exists data' st',
    update_stage_progress sid w = (Ok tt, World data' (disk w)) /\
    stage_of data' sid = Ok st' /\
    py_getitem st' "progress" = Ok (VNum progress) /\
    py_getitem st' "completed"
    = Ok (VBool (bool_decide (Qc_of_Z 100 ≤ progress)%Qc)).
Proof.
  intros Hst Hkeyed total completed progress.
  destruct (recompute_stage_keyed st Hkeyed) as (d & -> & Hre).
  fold total completed progress in Hre.
  destruct (update_at_stage _ _ _ _ _ Hst Hre) as (dd & sl & Hdata & Hs & _ & Hup).
  eexists _, _. split; [|split; [|split]].
  - unfold update_stage_progress, sbind, get_data, lift, set_data.
    by rewrite Hup.
  - unfold stage_of. simpl. rewrite dict_get_set_eq. simpl.
    by rewrite dict_get_set_eq.
  - simpl. rewrite dict_get_set_ne by done. by rewrite dict_get_set_eq.
  - simpl. by rewrite dict_get_set_eq.
Qed.

Lemma update_stage_progress_truthy_witness :
  exists data' st',
    update_stage_progress "s" (World loose_record ∅) = (Ok tt, World data' ∅) /\
    stage_of data' "s" = Ok st' /\
    py_getitem st' "progress" = Ok (VNum (Qc_of_Z 50)).
Proof.
  destruct (update_stage_progress_truthy "s" (World loose_record ∅)
              loose_stage eq_refl eq_refl)
    as (data' & st' & Hrun & Hst' & Hp & _).
  exists data', st'. split; [exact Hrun|]. split; [exact Hst'|].
  rewrite Hp. do 2 f_equal. apply Qc_is_canon. reflexivity.
Defined.

(** ** Import, export and restart *)

Lemma load_data_disk clk w1 w2 :
  disk w1 = disk w2 -> (load_data clk w1).1 = (load_data clk w2).1.
Proof.
  intros Hd. unfold load_data, sbind, path_exists, try_except, read_json,
    lift, sret.
  rewrite Hd. destruct (disk w2 !! filename) as [[|[v|]]|] eqn:E; simpl;
    rewrite ?Hd, ?E; simpl; try done.
  by destruct (fix_missing_data clk v).
Qed.

(** X11: [import_progress] never writes: whatever it returns, the disk is
    as before, so a tracker constructed afterwards starts from what was in
    the backing file before the import. *)
Theorem import_progress_not_persisted clk clk' p w r w' :
  import_progress clk p w = (r, w') ->
  disk w' = disk w /\ init clk' (disk w') = init clk' (disk w).
Proof.
  intros H. assert (disk w' = disk w) as Hd.
  { revert H.
    unfold import_progress, sbind, try_except, read_json, lift, set_data, sret.
    cbv beta. destruct (disk w !! p) as [[|[v|]]|]; simpl;
      try by intros [= <- <-].
    by destruct (fix_missing_data clk v); simpl; intros [= <- <-]. }
  split; [done|]. by rewrite Hd.
Qed.

Lemma import_progress_not_persisted_witness :
  exists w',
    import_progress clock1 "old.json" import_world = (Ok true, w') /\
    disk w' = disk import_world.
Proof.
  assert (exists w', import_progress clock1 "old.json" import_world
                     = (Ok true, w'))
    as [w' Hrun] by (eexists; vm_compute; reflexivity).
  exists w'. split; [exact Hrun|].
  apply (import_progress_not_persisted clock1 clock1 _ _ _ _ Hrun).
Defined.

(** X12: exporting a record that holds the whole curriculum and importing
    the file written gives back that record, time stamp included. *)
Theorem export_import_round_trip clk p w :
  complete_record (self_data w) = true -> disk w !! p <> Some Locked ->
  exists w1,
    export_progress p w = (Ok tt, w1) /\
    import_progress clk p w1 = (Ok true, w1) /\
    self_data w1 = self_data w.
Proof.
  intros Hc Hp. pose proof (complete_record_fixed clk _ Hc) as Hfix.
  exists (World (self_data w) (<[p := Text (Some (self_data w))]> (disk w))).
  split; [|split; [|done]].
  - unfold export_progress, sbind, get_data, write_json. simpl.
    by destruct (disk w !! p) as [[]|].
  - unfold import_progress, sbind, try_except, read_json, lift, set_data, sret.
    simpl. rewrite lookup_insert_eq. simpl. by rewrite Hfix.
Qed.

Lemma export_import_round_trip_witness :
  exists w1,
    export_progress "copy.json" (World (get_default_data clock0) ∅)
    = (Ok tt, w1) /\
    import_progress clock1 "copy.json" w1 = (Ok true, w1).
Proof.
  destruct (export_import_round_trip clock1 "copy.json"
              (World (get_default_data clock0) ∅)) as (w1 & He & Hi & _).
  - reflexivity.
  - simpl. rewrite lookup_empty. discriminate.
  - exists w1. split; [exact He | exact Hi].
Defined.

(** X13: the migration does not look at the metadata, so a file without
    them is imported; [save_data] then raises on the missing key, writes
    nothing and leaves the record as imported. *)
Theorem import_without_metadata clk clk' p w v v' e :
  disk w !! p = Some (Text (Some v)) ->
  fix_missing_data clk v = Ok v' ->
  py_getitem v "metadata" = Raise e ->
  import_progress clk p w = (Ok true, World v' (disk w)) /\
  save_data clk' (World v' (disk w)) = (Raise e, World v' (disk w)).
Proof.
  intros Hp Hfix Hm. split.
  - unfold import_progress, sbind, try_except, read_json, lift, set_data, sret.
    rewrite Hp. simpl. by rewrite Hfix.
  - rewrite fix_missing_data_loop in Hfix.
    rewrite <-(migrate_toplevel _ _ _ _ "metadata" Hfix) in Hm by done.
    rewrite save_data_cases. unfold with_stamp. simpl. by rewrite Hm.
Qed.

Lemma import_without_metadata_witness :
  let w := World (get_default_data clock0)
                 {[ "bare.json" := Text (Some stages_only) ]} in
  exists v',
    import_progress clock1 "bare.json" w = (Ok true, World v' (disk w)) /\
    save_data clock1 (World v' (disk w))
    = (Raise (KeyError "metadata"), World v' (disk w)).
Proof.
  intros w. eexists.
  apply (import_without_metadata clock1 clock1 "bare.json" w stages_only).
  - reflexivity.
  - vm_compute. reflexivity.
  - reflexivity.
Defined.

(** ** Reset *)

(** X14: whatever the record in memory was, after the reset it is the
    default record of the day with the time of the save as [last_update]:
    no entry completed, total 0, the whole curriculum; it is written to the
    backing file if that can be written, otherwise [PermissionError] is
    raised with the new record in memory. *)
Theorem reset_progress_result clk clk' w :
  let d := get_default_data (Clock (today clk) (stamp clk')) in
  self_data (reset_progress clk clk' w).2 = d /\
  (disk w !! filename <> Some Locked ->
   reset_progress clk clk' w
   = (Ok tt, World d (<[filename := Text (Some d)]> (disk w)))) /\
  (disk w !! filename = Some Locked ->
   reset_progress clk clk' w = (Raise PermissionError, World d (disk w))) /\
  no_item_completed d = true /\
  (m <- py_getitem d "metadata" ;; py_getitem m "total_progress") = Ok (num 0) /\
  complete_record d = true.
Proof.
  intros d.
  assert (reset_progress clk clk' w
          = match disk w !! filename with
            | Some Locked => (Raise PermissionError, World d (disk w))
            | _ => (Ok tt, World d (<[filename := Text (Some d)]> (disk w)))
            end) as ->.
  { unfold reset_progress, sbind, set_data.
    by rewrite (save_data_run clk' (World (get_default_data clk) (disk w))
                  _ _ eq_refl eq_refl). }
  repeat split.
  - by destruct (disk w !! filename) as [[]|].
  - by destruct (disk w !! filename) as [[]|].
  - by intros ->.
Qed.

Lemma reset_progress_result_witness :
  let d := get_default_data (Clock "2024-01-01" "2024-03-05 18:30:00") in
  reset_progress clock0 clock1 import_world
  = (Ok tt, World d (<[filename := Text (Some d)]> (disk import_world))).
Proof.
  intros d.
  apply (proj1 (proj2 (reset_progress_result clock0 clock1 import_world))).
  vm_compute. discriminate.
Defined.

(** ** Restart *)

Lemma toggled_complete clk kind sid id b d d' :
  toggled clk kind sid id b d = Ok d' ->
  complete_record d = true -> complete_record d' = true.
Proof.
  intros H. unfold toggled in H.
  bind_inv H as d1 H1. bind_inv H as d2 H2. bind_inv H as d3 H3.
  apply with_flag_inv in H1
    as (dd & sl & sd & il & it & -> & Hs & Hst & Hil & Hit & ->).
  apply with_stage_progress_inv in H2
    as (? & sl1 & sd1 & p & c & [= <-] & Hs1 & Hst1 & ->).
  rewrite dict_get_set_eq in Hs1. injection Hs1 as <-.
  rewrite dict_get_set_eq in Hst1. injection Hst1 as <-.
  apply with_total_progress_inv in H3 as (? & md & t & [= <-] & Hmd & ->).
  apply with_stamp_inv in H as (? & md1 & [= <-] & Hmd1 & ->).
  unfold complete_record. simpl py_getitem. rewrite Hs. dict_lookup.
  rewrite !forallb_forall. intros Hall [s dst] Hin.
  specialize (Hall (s, dst) Hin). simpl in Hall.
  destruct (decide (s = sid)) as [->|Hne]; [|by dict_lookup].
  dict_lookup. rewrite Hst in Hall.
  unfold stage_complete in *. simpl in *.
  destruct (dict_has "resources" sd) eqn:Hres; [|done].
  rewrite (dict_has_set _ _ _ _
             (dict_has_set _ _ _ _ (dict_has_set kind _ _ _ Hres))).
  destruct (dict_get "tasks" sd) as [[| | | | |c0]|] eqn:Hc; try done.
  destruct (decide (kind = "tasks")) as [->|Hk].
  - dict_lookup. rewrite Hc in Hil. injection Hil as ->.
    destruct (py_getitem dst "tasks") as [[| | | | |dl]|]; try done.
    rewrite forallb_forall in Hall. apply forallb_forall. intros tk Htk.
    apply dict_has_set. by apply Hall.
  - dict_lookup. by rewrite Hc.
Qed.

(** X15: a toggle that returns survives a restart: on a record that
    holds the whole curriculum, after [update_task] or [update_resource]
    has returned, a tracker constructed from the disk has exactly the
    record that was in memory. *)
Theorem update_survives_restart clk clk' sid id b w w' :
  complete_record (self_data w) = true ->
  update_task clk sid id b w = (Ok tt, w') \/
  update_resource clk sid id b w = (Ok tt, w') ->
  init clk' (disk w') = Ok w'.
Proof.
  intros Hc H.
  assert (exists kind, toggled clk kind sid id b (self_data w)
                       = Ok (self_data w') /\
            disk w' = <[filename := Text (Some (self_data w'))]> (disk w))
    as (kind & Ht & Hd).
  { destruct H as [H|H];
      [exists "tasks"; rewrite update_task_outcome in H
      |exists "resources"; rewrite update_resource_outcome in H];
      (destruct (toggled _ _ _ _ _ _) as [d'|]; [|done]);
      by destruct (disk w !! filename) as [[]|]; simplify_eq. }
  pose proof (toggled_complete _ _ _ _ _ _ _ Ht Hc) as Hc'.
  unfold init.
  rewrite (load_data_reads clk' (World VNone (disk w')) (self_data w')).
  - by destruct w'.
  - simpl. rewrite Hd. apply lookup_insert_eq.
  - by apply complete_record_fixed.
Qed.

Lemma update_survives_restart_witness :
  exists w',
    update_task clock1 "stage1" "task1" true
      (World (get_default_data clock0) ∅) = (Ok tt, w') /\
    init clock0 (disk w') = Ok w'.
Proof.
  assert (exists w', update_task clock1 "stage1" "task1" true
                       (World (get_default_data clock0) ∅) = (Ok tt, w'))
    as [w' Hrun] by (eexists; vm_compute; reflexivity).
  exists w'. split; [exact Hrun|].
  apply (update_survives_restart clock1 clock0 "stage1" "task1" true
           (World (get_default_data clock0) ∅)).
  - reflexivity.
  - left. exact Hrun.
Defined.

(** X17: when the backing file holds JSON of the expected shape,
    [load_data] returns its migration, a record that holds the whole
    curriculum, and writes nothing: the file keeps its old content until
    the next save. *)
Theorem load_data_migrates clk w v :
  disk w !! filename = Some (Text (Some v)) -> well_shaped v = true ->
  exists v',
    fix_missing_data clk v = Ok v' /\
    load_data clk w = (Ok v', w) /\
    init clk (disk w) = Ok (World v' (disk w)) /\
    complete_record v' = true.
Proof.
  intros Hfile Hv. destruct (fix_missing_data_total clk v Hv) as [v' Hfix].
  assert (forall w0, disk w0 !! filename = Some (Text (Some v)) ->
                     load_data clk w0 = (Ok v', w0)) as Hload.
  { intros w0 Hw0.
    unfold load_data, sbind, path_exists, try_except, read_json, lift.
    rewrite Hw0. simpl. by rewrite Hw0, Hfix. }
  exists v'. split; [done|]. split; [by apply Hload|]. split.
  - unfold init. by rewrite Hload.
  - rewrite fix_missing_data_loop in Hfix.
    apply (migrate_complete default_stages default_stages_ok).
    + apply default_stages_NoDup.
    + by eapply (migrate_shape default_stages default_stages_ok).
    + by eapply migrate_idem; [apply default_stages_ok|].
Qed.

Lemma load_data_migrates_witness :
  let w := World VNone {[ filename := Text (Some early_record) ]} in
  exists v',
    load_data clock1 w = (Ok v', w) /\ complete_record v' = true.
Proof.
  intros w.
  destruct (load_data_migrates clock1 w early_record eq_refl eq_refl)
    as (v' & _ & Hload & _ & Hc).
  exists v'. split; [exact Hload | exact Hc].
Defined.

(** ** Range of the progress and meaning of the stage flag *)








(** * The aggregation in the arithmetic of the program *)

(** ** The rounding *)

(** [fl] and the primitive binary64 operations give the same quotient
    [c / n] and the same progress [(c / n) * 100] for all counts up to 64. *)
Example fl_agrees_upto_64 :
  forallb (fun '(c, n) => fl_agrees c n) (count_pairs 64) = true.
Proof. vm_compute. reflexivity. Qed.

(** The same for sums and means of progress values, every addition
    rounded. *)
Example mean_agrees_examples :
  forallb mean_agrees
    [ [Qc_of_Z 0; Qc_of_Z 50; Qc_of_Z 100];
      [Qc_of_Z 100; Qc_of_Z 0; Qc_of_Z 0];
      [progress_b64 1 3; progress_b64 2 3; progress_b64 1 9; progress_b64 7 9];
      [progress_b64 5 9; progress_b64 3 8; progress_b64 1 10; progress_b64 4 10];
      [progress_b64 1 7; progress_b64 2 7; progress_b64 3 7; progress_b64 4 7;
       progress_b64 5 7; progress_b64 6 7; progress_b64 7 7] ] = true.
Proof. vm_compute. reflexivity. Qed.

Lemma Qc_of_nat_nonzero n : n <> 0%nat -> Qc_of_nat n <> 0%Qc.
Proof.
  intros Hn H. apply (f_equal this) in H. unfold Qc_of_nat, Qc_of_Z in H.
  simpl in H. injection H as H. lia.
Qed.

Lemma progress_b64_full n : n <> 0%nat -> progress_b64 n n = Qc_of_Z 100.
Proof.
  intros Hn. unfold progress_b64, Qcdiv.
  rewrite Qcmult_inv_r by by apply Qc_of_nat_nonzero.
  apply Qc_is_canon. reflexivity.
Qed.

Lemma progress_b64_formula c n :
  (if bool_decide (0 < n)%nat
   then fl (fl (Qc_of_nat c / Qc_of_nat n) * Qc_of_Z 100) else 0%Qc)
  = if bool_decide (n = 0%nat) then 0%Qc else progress_b64 c n.
Proof.
  destruct n as [|n]; [done|].
  rewrite bool_decide_true by lia. by rewrite bool_decide_false by lia.
Qed.

(** ** The progress of a stage *)

Lemma recompute_stage_b64_keyed st :
  keyed_stage st = true ->
  let total := (total_in st "tasks" + total_in st "resources")%nat in
  let completed := (truthy_in st "tasks" + truthy_in st "resources")%nat in
  let progress :=
    if bool_decide (total = 0%nat) then 0%Qc else progress_b64 completed total in
  exists d, st = VDict d /\
    recompute_stage_b64 st
    = Ok (VDict (dict_set "completed"
                   (VBool (bool_decide (Qc_of_Z 100 ≤ progress)%Qc))
                   (dict_set "progress" (VNum progress) d))).
Proof.
  unfold keyed_stage, total_in, truthy_in, items_of. intros H.
  apply andb_true_iff in H as [Ht Hr].
  destruct (py_getitem st "tasks") as [[| | | | |tasks]|] eqn:Htasks;
    try done.
  apply py_getitem_Ok in Htasks as (d & -> & Htasks). exists d. split; [done|].
  unfold recompute_stage_b64, count_completed. simpl in *. rewrite Htasks. simpl.
  rewrite (count_completed_keyed_from 0 _ Ht). simpl.
  destruct (dict_get "resources" d) as [[| | | | |resources]|] eqn:Hres;
    try done; simpl.
  - rewrite (count_completed_keyed_from 0 _ Hr). simpl.
    by rewrite !length_fmap, progress_b64_formula.
  - rewrite !length_fmap, progress_b64_formula. by rewrite !Nat.add_0_r.
Qed.

Lemma update_stage_progress_b64_keyed sid w st :
  stage_of (self_data w) sid = Ok st -> keyed_stage st = true ->
  let total := (total_in st "tasks" + total_in st "resources")%nat in
  let completed := (truthy_in st "tasks" + truthy_in st "resources")%nat in
  let progress :=
    if bool_decide (total = 0%nat) then 0%Qc else progress_b64 completed total in
  exists data' st',
    update_stage_progress_b64 sid w = (Ok tt, World data' (disk w)) /\
    stage_of data' sid = Ok st' /\
    py_getitem st' "progress" = Ok (VNum progress) /\
    py_getitem st' "completed"
    = Ok (VBool (bool_decide (Qc_of_Z 100 ≤ progress)%Qc)).
Proof.
  intros Hst Hkeyed total completed progress.
  destruct (recompute_stage_b64_keyed st Hkeyed) as (d & -> & Hre).
  fold total completed progress in Hre.
  destruct (update_at_stage _ _ _ _ _ Hst Hre) as (dd & sl & Hdata & Hs & _ & Hup).
  eexists _, _. split; [|split; [|split]].
  - unfold update_stage_progress_b64, sbind, get_data, lift, set_data.
    by rewrite Hup.
  - unfold stage_of. simpl. rewrite dict_get_set_eq. simpl.
    by rewrite dict_get_set_eq.
  - simpl. rewrite dict_get_set_ne by done. by rewrite dict_get_set_eq.
  - simpl. by rewrite dict_get_set_eq.
Qed.

(** On typed entries a flag is true in a condition exactly when it is
    [true]. *)
Lemma typed_items_truthy items :
  forallb typed_item items = true ->
  forallb keyed_item items = true /\
  List.filter truthy_flag items = List.filter is_completed items.
Proof.
  induction items as [|item items IH]; simpl; [done|]. intros H.
  apply andb_true_iff in H as [Hitem Hitems].
  destruct (IH Hitems) as [IH1 IH2]. rewrite IH1, IH2.
  unfold typed_item in Hitem. unfold keyed_item, truthy_flag, is_completed.
  by destruct (py_getitem item "completed") as [[|[]| | | |]|].
Qed.

Lemma typed_stage_keyed st :
  typed_stage st = true ->
  keyed_stage st = true /\
  truthy_in st "tasks" = completed_in st "tasks" /\
  truthy_in st "resources" = completed_in st "resources".
Proof.
  unfold typed_stage, keyed_stage, truthy_in, completed_in, items_of.
  intros H. apply andb_true_iff in H as [Ht Hr].
  destruct (py_getitem st "tasks") as [[| | | | |tasks]|]; try done.
  simpl in Ht. destruct (typed_items_truthy _ Ht) as [Ht1 Ht2].
  simpl. rewrite Ht1, Ht2. simpl.
  destruct (py_getitem st "resources") as [[| | | | |resources]|]; try done.
  simpl in Hr. destruct (typed_items_truthy _ Hr) as [Hr1 Hr2].
  simpl. by rewrite Hr1, Hr2.
Qed.

(** C6 (as amended): on a stage whose entries are typed,
    [update_stage_progress] does not raise; the progress it stores is the
    binary64 result of [(completed / total) * 100], the quotient rounded
    first and then the product, and [0] for a stage without entries; it
    sets the flag exactly when that progress is at least 100; with every
    entry completed the progress is exactly 100, and 2 of 3 tasks with 1
    of 2 resources give exactly 60. *)
Theorem update_stage_progress_b64_spec sid w st :
  stage_of (self_data w) sid = Ok st -> typed_stage st = true ->
  let total := (total_in st "tasks" + total_in st "resources")%nat in
  let completed := (completed_in st "tasks" + completed_in st "resources")%nat in
  let progress :=
    if bool_decide (total = 0%nat) then 0%Qc else progress_b64 completed total in
  exists data' st',
    update_stage_progress_b64 sid w = (Ok tt, World data' (disk w)) /\
    stage_of data' sid = Ok st' /\
    py_getitem st' "progress" = Ok (VNum progress) /\
    py_getitem st' "completed"
      = Ok (VBool (bool_decide (Qc_of_Z 100 ≤ progress)%Qc)) /\
    (total <> 0%nat -> completed = total -> progress = Qc_of_Z 100) /\
    (total_in st "tasks" = 3%nat -> total_in st "resources" = 2%nat ->
     completed_in st "tasks" = 2%nat -> completed_in st "resources" = 1%nat ->
     progress = Qc_of_Z 60).
Proof.
  intros Hst Htyped total completed progress.
  destruct (typed_stage_keyed st Htyped) as (Hkeyed & Ht & Hr).
  destruct (update_stage_progress_b64_keyed sid w st Hst Hkeyed)
    as (data' & st' & Hrun & Hst' & Hp & Hc).
  rewrite Ht, Hr in Hp, Hc. fold total completed progress in Hp, Hc.
  exists data', st'. repeat split; try done.
  - intros Hne Hall. subst progress. rewrite bool_decide_false by done.
    rewrite Hall. by apply progress_b64_full.
  - subst total completed progress. intros -> -> -> ->. simpl.
    apply Qc_is_canon. reflexivity.
Qed.

Lemma update_stage_progress_b64_spec_witness :
  exists data' st',
    update_stage_progress_b64 "s" (World sample_stage_record ∅)
      = (Ok tt, World data' ∅) /\
    stage_of data' "s" = Ok st' /\
    py_getitem st' "progress" = Ok (VNum (Qc_of_Z 60)) /\
    py_getitem st' "completed" = Ok (VBool false).
Proof.
  destruct (update_stage_progress_b64_spec "s" (World sample_stage_record ∅)
              sample_stage eq_refl eq_refl)
    as (data' & st' & Hrun & Hst' & Hp & Hc & _ & H60).
  exists data', st'. split; [exact Hrun|]. split; [exact Hst'|].
  rewrite <-(H60 eq_refl eq_refl eq_refl eq_refl). split; [exact Hp|].
  rewrite Hc. reflexivity.
Defined.

(** C6 as stated fails: for a stage with three tasks, one of them
    completed, and no resource, the program stores [(1 / 3) * 100], which
    is 33.33333333333333 (2345624805922133 / 2^46); that is not 100 / 3,
    and it is not the binary64 result of [100 * 1 / 3] either, which is
    33.333333333333336 (4691249611844267 / 2^47). *)
Lemma update_stage_progress_b64_not_percentage :
  typed_stage third_stage = true /\
  total_in third_stage "tasks" = 3%nat /\
  total_in third_stage "resources" = 0%nat /\
  completed_in third_stage "tasks" = 1%nat /\
  completed_in third_stage "resources" = 0%nat /\
  exists data' st' p,
    update_stage_progress_b64 "s" (World third_stage_record ∅)
    = (Ok tt, World data' ∅) /\
    stage_of data' "s" = Ok st' /\
    py_getitem st' "progress" = Ok (VNum p) /\
    this p = (2345624805922133 # 70368744177664)%Q /\
    PrimFloat.eqb (float_of_Qc p) (float_stage_progress 1 3) = true /\
    this (percentage_b64 1 3) = (4691249611844267 # 140737488355328)%Q /\
    PrimFloat.eqb (float_of_Qc (percentage_b64 1 3)) (100 * 1 / 3)%float
    = true /\
    this (percentage 1 3) = (100 # 3)%Q /\
    p <> percentage 1 3 /\
    p <> percentage_b64 1 3.
Proof.
  repeat (split; [reflexivity|]).
  eexists _, _, _. split; [vm_compute; reflexivity|].
  split; [vm_compute; reflexivity|]. split; [vm_compute; reflexivity|].
  repeat (split; [vm_compute; reflexivity|]).
  split; intros H; apply (f_equal this) in H; vm_compute in H; discriminate.
Qed.

(** X10: the flags need not be booleans: on a stage whose entries all
    have a ["completed"] key [update_stage_progress] returns, and the
    progress it stores is the binary64 result of [(c / total) * 100] with
    [c] the number of entries whose flag is true in a condition: a
    non-empty string (["false"] too) or a number other than 0 counts as
    completed, [null], 0 and [""] do not. *)
Theorem update_stage_progress_b64_truthy sid w st :
  stage_of (self_data w) sid = Ok st -> keyed_stage st = true ->
  let total := (total_in st "tasks" + total_in st "resources")%nat in
  let completed := (truthy_in st "tasks" + truthy_in st "resources")%nat in
  let progress :=
    if bool_decide (total = 0%nat) then 0%Qc else progress_b64 completed total in
  exists data' st',
    update_stage_progress_b64 sid w = (Ok tt, World data' (disk w)) /\
    stage_of data' sid = Ok st' /\
    py_getitem st' "progress" = Ok (VNum progress) /\
    py_getitem st' "completed"
    = Ok (VBool (bool_decide (Qc_of_Z 100 ≤ progress)%Qc)).
Proof. apply update_stage_progress_b64_keyed. Qed.

Lemma update_stage_progress_b64_truthy_witness :
  exists data' st',
    update_stage_progress_b64 "s" (World loose_record ∅)
    = (Ok tt, World data' ∅) /\
    stage_of data' "s" = Ok st' /\
    py_getitem st' "progress" = Ok (VNum (Qc_of_Z 50)).
Proof.
  destruct (update_stage_progress_b64_truthy "s" (World loose_record ∅)
              loose_stage eq_refl eq_refl)
    as (data' & st' & Hrun & Hst' & Hp & _).
  exists data', st'. split; [exact Hrun|]. split; [exact Hst'|].
  rewrite Hp. do 2 f_equal. apply Qc_is_canon. reflexivity.
Defined.

(** ** The total progress *)








(** A progress value that is an [int] too large for a float makes
    [update_total_progress] raise [OverflowError]; nothing is stored. *)
Example update_total_progress_b64_overflow :
  update_total_progress_b64 (World huge_progress_record ∅)
  = (Raise OverflowError, World huge_progress_record ∅).
Proof. vm_compute. reflexivity. Qed.
